(** * Registration store: a shallow embedding of [manager.py]

    The development follows the layers of the program:

    - the Python [str] methods the manager calls ([lower], [strip], [in]);
    - the text layer of [open]: universal-newline reading and iteration
      over the lines of a file;
    - the [csv] module: [csv.writer(f).writerow] and the reader automaton
      behind [csv.DictReader], for the default ("excel") dialect, as
      CPython 3.11 and later implement them;
    - the clock reading [datetime.now().strftime(...)];
    - the validator interface ([validator.py] is not part of the sources);
    - [RegistrationManager] itself, as a state-and-exception monad over the
      contents of the record file.

    A Python [str] is modelled as a Rocq [string] whose characters are the
    code points U+0000..U+00FF; the file is modelled by its decoded text
    (the UTF-8 codec is the identity at this level).  The path of the file
    ([REGISTRATION_FILE] by default) plays no part: the state is the
    contents of the one file the manager was given. *)

From Stdlib Require Import Ascii String.
From stdpp Require Import gmap strings list fin_maps.

(** ** Python strings *)

Module PyStr.

Definition LF : ascii := "010"%char.
Definition CR : ascii := "013"%char.
Definition COMMA : ascii := ","%char.
Definition DQUOTE : ascii := "034"%char.

(** [str.isspace] on one character: TAB, LF, VT, FF, CR, the separators
    U+001C..U+001F, SPACE, NEL (U+0085) and NBSP (U+00A0). *)
Definition isspace (c : ascii) : bool :=
  let n := nat_of_ascii c in
  ((9 <=? n) && (n <=? 13)) || ((28 <=? n) && (n <=? 32))
  || (n =? 133) || (n =? 160).

(** [str.lower] on one character: A-Z, and U+00C0..U+00DE except the
    multiplication sign U+00D7, move up by 32; the rest is unchanged. *)
Definition lower_char (c : ascii) : ascii :=
  let n := nat_of_ascii c in
  if ((65 <=? n) && (n <=? 90))
     || ((192 <=? n) && (n <=? 222) && negb (n =? 215))
  then ascii_of_nat (n + 32) else c.

(** [s.lower()] *)
Fixpoint lower (s : string) : string :=
  match s with
  | EmptyString => EmptyString
  | String c s' => String (lower_char c) (lower s')
  end.

(** [s.lstrip()], [s.rstrip()], [s.strip()] *)
Fixpoint lstrip (s : string) : string :=
  match s with
  | EmptyString => EmptyString
  | String c s' => if isspace c then lstrip s' else s
  end.

Fixpoint rstrip (s : string) : string :=
  match s with
  | EmptyString => EmptyString
  | String c s' =>
      match rstrip s' with
      | EmptyString => if isspace c then EmptyString else String c EmptyString
      | r => String c r
      end
  end.

Definition strip (s : string) : string := rstrip (lstrip s).

(** [q in t] for strings: [q] occurs in [t] as a contiguous substring. *)
Fixpoint contains (q t : string) : bool :=
  String.prefix q t
  || match t with
     | EmptyString => false
     | String _ t' => contains q t'
     end.

(** [c in s] for a character. *)
Fixpoint mem (c : ascii) (s : string) : bool :=
  match s with
  | EmptyString => false
  | String d s' => Ascii.eqb c d || mem c s'
  end.

(** [c * n] for a character: the string of [n] times [c]. *)
Fixpoint times (c : ascii) (n : nat) : string :=
  match n with
  | 0 => EmptyString
  | S n' => String c (times c n')
  end.

End PyStr.

Import PyStr.

(** ** Exceptions *)

(** The Python exceptions that the modelled code can raise. *)
Inductive exn : Type :=
| KeyError (key : string)
| AttributeError
| CsvError
| FileNotFoundError.

Inductive outcome (A : Type) : Type :=
| Returns (a : A)
| Raises (e : exn).

Arguments Returns {A} a.
Arguments Raises {A} e.

Definition obind {A B : Type} (x : outcome A) (k : A -> outcome B) : outcome B :=
  match x with
  | Returns a => k a
  | Raises e => Raises e
  end.

Definition omap {A B : Type} (f : A -> B) (x : outcome A) : outcome B :=
  obind x (fun a => Returns (f a)).

(** ** The text layer of [open] *)

Module TextIO.

(** Reading with [open(path, 'r')] (newline=None): a CR LF pair and a lone
    CR are both delivered as LF.  The flag is the decoder's pending-CR
    state. *)
Fixpoint translate (pendingcr : bool) (s : string) : string :=
  match s with
  | EmptyString => EmptyString
  | String c s' =>
      if Ascii.eqb c CR then String LF (translate true s')
      else if Ascii.eqb c LF && pendingcr then translate false s'
      else String c (translate false s')
  end.

Definition universal_newlines (s : string) : string := translate false s.

(** Iterating over a text file: lines keep their terminating LF; the last
    line may lack one. *)
Fixpoint iter_lines (s : string) : list string :=
  match s with
  | EmptyString => []
  | String c s' =>
      if Ascii.eqb c LF then String c EmptyString :: iter_lines s'
      else match iter_lines s' with
           | [] => [String c EmptyString]
           | l :: ls => String c l :: ls
           end
  end.

End TextIO.

Import TextIO.

(** ** The [csv] module, default dialect

    delimiter comma, quotechar the double quote, doublequote, no escapechar, no
    skipinitialspace, lineterminator CR LF, QUOTE_MINIMAL, not strict.
    The reader keeps the module-wide field size limit at its default. *)

Module Csv.

(** *** Writer *)

(** A field is quoted when it holds the delimiter, the quote character or a
    character of the line terminator. *)
Definition needs_quote (c : ascii) : bool :=
  Ascii.eqb c COMMA || Ascii.eqb c DQUOTE || Ascii.eqb c CR || Ascii.eqb c LF.

Fixpoint must_quote (s : string) : bool :=
  match s with
  | EmptyString => false
  | String c s' => needs_quote c || must_quote s'
  end.

(** doublequote: every quote character of the field is written twice. *)
Fixpoint double_quotes (s : string) : string :=
  match s with
  | EmptyString => EmptyString
  | String c s' =>
      if Ascii.eqb c DQUOTE then String DQUOTE (String DQUOTE (double_quotes s'))
      else String c (double_quotes s')
  end.

Definition write_field (s : string) : string :=
  if must_quote s
  then String DQUOTE (double_quotes s +:+ String DQUOTE EmptyString)
  else s.

Fixpoint join_fields (row : list string) : string :=
  match row with
  | [] => EmptyString
  | [f] => write_field f
  | f :: rest => write_field f +:+ String COMMA (join_fields rest)
  end.

(** [csv.writer(f).writerow(row)]: the text handed to [f.write], that is
    the joined fields and the line terminator.  A record that would come
    out empty (one empty field) is written as a quoted empty field. *)
Definition record_text (row : list string) : string :=
  match row, join_fields row with
  | _ :: _, EmptyString => String DQUOTE (String DQUOTE EmptyString)
  | _, rec => rec
  end.

Definition writerow (row : list string) : string :=
  record_text row +:+ String CR (String LF EmptyString).

(** *** Reader *)

(** The states of the parser that the default dialect can reach (the three
    escape states need an escapechar). *)
Inductive parser_state : Type :=
| START_RECORD
| START_FIELD
| IN_FIELD
| IN_QUOTED_FIELD
| QUOTE_IN_QUOTED_FIELD
| EAT_CRNL.

Record reader : Type := mkReader {
  state : parser_state;
  fields : list string;   (* the fields of the record saved so far *)
  field : string          (* the characters of the field being read *)
}.

Definition parse_reset : reader :=
  {| state := START_RECORD; fields := []; field := EmptyString |}.

(** [csv.field_size_limit()], which the program never changes. *)
Definition field_size_limit : N := 131072.

(** A character is refused, with [_csv.Error], when the field being read
    already holds as many characters as the limit allows. *)
Definition parse_add_char (r : reader) (c : ascii) : outcome reader :=
  if (field_size_limit <=? N.of_nat (String.length (field r)))%N
  then Raises CsvError
  else Returns {| state := state r; fields := fields r;
                  field := field r +:+ String c EmptyString |}.

Arguments parse_add_char : simpl never.

Definition parse_save_field (r : reader) : reader :=
  {| state := state r; fields := fields r ++ [field r]; field := EmptyString |}.

Definition set_state (st : parser_state) (r : reader) : reader :=
  {| state := st; fields := fields r; field := field r |}.

Definition is_start_record (r : reader) : bool :=
  match state r with START_RECORD => true | _ => false end.

Definition is_in_quoted_field (r : reader) : bool :=
  match state r with IN_QUOTED_FIELD => true | _ => false end.

(** The end-of-line marker that the reader feeds after every line. *)
Inductive input : Type :=
| Char (c : ascii)
| EOL.

Definition is_newline (i : input) : bool :=
  match i with
  | Char c => Ascii.eqb c LF || Ascii.eqb c CR
  | EOL => false
  end.

(** The START_FIELD case of the switch; START_RECORD falls through to it. *)
Definition start_field (r : reader) (i : input) : outcome reader :=
  match i with
  | EOL => Returns (set_state START_RECORD (parse_save_field r))
  | Char c =>
      if is_newline i then Returns (set_state EAT_CRNL (parse_save_field r))
      else if Ascii.eqb c DQUOTE then Returns (set_state IN_QUOTED_FIELD r)
      else if Ascii.eqb c COMMA then Returns (parse_save_field r)
      else omap (set_state IN_FIELD) (parse_add_char r c)
  end.

Definition parse_process_char (r : reader) (i : input) : outcome reader :=
  match state r with
  | START_RECORD =>
      match i with
      | EOL => Returns r
      | Char c =>
          if is_newline i then Returns (set_state EAT_CRNL r)
          else start_field (set_state START_FIELD r) i
      end
  | START_FIELD => start_field r i
  | IN_FIELD =>
      match i with
      | EOL => Returns (set_state START_RECORD (parse_save_field r))
      | Char c =>
          if is_newline i then Returns (set_state EAT_CRNL (parse_save_field r))
          else if Ascii.eqb c COMMA
               then Returns (set_state START_FIELD (parse_save_field r))
          else parse_add_char r c
      end
  | IN_QUOTED_FIELD =>
      match i with
      | EOL => Returns r
      | Char c =>
          if Ascii.eqb c DQUOTE then Returns (set_state QUOTE_IN_QUOTED_FIELD r)
          else parse_add_char r c
      end
  | QUOTE_IN_QUOTED_FIELD =>
      match i with
      | EOL => Returns (set_state START_RECORD (parse_save_field r))
      | Char c =>
          if Ascii.eqb c DQUOTE
          then omap (set_state IN_QUOTED_FIELD) (parse_add_char r c)
          else if Ascii.eqb c COMMA
               then Returns (set_state START_FIELD (parse_save_field r))
          else if is_newline i
               then Returns (set_state EAT_CRNL (parse_save_field r))
          else omap (set_state IN_FIELD) (parse_add_char r c)
      end
  | EAT_CRNL =>
      match i with
      | EOL => Returns (set_state START_RECORD r)
      | Char c => if is_newline i then Returns r else Raises CsvError
      end
  end.

(** The inner loop of [Reader_iternext]: the characters of one line, then
    the end-of-line marker. *)
Fixpoint process_line (r : reader) (line : string) : outcome reader :=
  match line with
  | EmptyString => parse_process_char r EOL
  | String c line' =>
      obind (parse_process_char r (Char c)) (fun r' => process_line r' line')
  end.

(** [list(csv.reader(lines))], started in parser state [r]: a record is
    complete when a line leaves the parser in START_RECORD; at the end of
    the input a pending field or an open quoted field still yields a last
    record. *)
Fixpoint read_records (r : reader) (lines : list string)
  : outcome (list (list string)) :=
  match lines with
  | [] =>
      if negb (String.eqb (field r) EmptyString) || is_in_quoted_field r
      then Returns [fields (parse_save_field r)]
      else Returns []
  | line :: lines' =>
      obind (process_line r line) (fun r' =>
        if is_start_record r'
        then omap (cons (fields r')) (read_records parse_reset lines')
        else read_records r' lines')
  end.

Definition reader_list (lines : list string) : outcome (list (list string)) :=
  read_records parse_reset lines.

End Csv.

Import Csv.

(** *** [csv.DictReader] *)

(** The values a row dictionary can hold: a field of the row, [None] (the
    restval of a short row), or the list of surplus fields of a long row. *)
Inductive value : Type :=
| VStr (s : string)
| VNone
| VList (l : list string).

(** A Python dict whose keys are strings or [None] (the restkey). *)
Abbreviation pydict := (gmap (option string) value).

Module DictReader.

(** [dict(zip(fieldnames, row))]: a later pair replaces an earlier one with
    the same key. *)
Definition dict_zip (fieldnames row : list string) : pydict :=
  fold_left (fun d kv => <[Some (fst kv) := VStr (snd kv)]> d)
            (zip fieldnames row) ∅.

Definition fill_restval (keys : list string) (d : pydict) : pydict :=
  fold_left (fun d k => <[Some k := VNone]> d) keys d.

(** The body of [DictReader.__next__] once a non-blank row is at hand. *)
Definition make_row (fieldnames row : list string) : pydict :=
  let d := dict_zip fieldnames row in
  let lf := length fieldnames in
  let lr := length row in
  if lf <? lr then <[None := VList (drop lf row)]> d
  else if lr <? lf then fill_restval (drop lr fieldnames) d
  else d.

Definition nonblank (row : list string) : bool :=
  match row with [] => false | _ :: _ => true end.

(** [list(csv.DictReader(f))] from the records of the plain reader: the
    first record gives the field names, blank records after it are
    skipped. *)
Definition rows (records : list (list string)) : list pydict :=
  match records with
  | [] => []
  | fieldnames :: rest => map (make_row fieldnames) (List.filter nonblank rest)
  end.

End DictReader.

(** ** [datetime.now().strftime("%Y-%m-%d %H:%M:%S")] *)

Module DateTime.

(** A reading of the clock; [datetime] keeps 1 <= year <= 9999,
    1 <= month <= 12, 1 <= day <= 31, hour < 24, minute < 60, second < 60. *)
Record datetime : Type := mkDatetime {
  year : nat; month : nat; day : nat;
  hour : nat; minute : nat; second : nat
}.

Definition digit (n : nat) : ascii := ascii_of_nat (48 + n mod 10).

Definition pad2 (n : nat) : string :=
  String (digit (n / 10)) (String (digit n) EmptyString).

Definition pad4 (n : nat) : string :=
  String (digit (n / 1000)) (String (digit (n / 100)) (pad2 n)).

(** A number in decimal digits, most significant first, put before
    [acc]. *)
Fixpoint decimal (fuel n : nat) (acc : string) : string :=
  match fuel with
  | 0 => acc
  | S fuel' =>
      let acc' := String (digit n) acc in
      if n <? 10 then acc' else decimal fuel' (n / 10) acc'
  end.

(** [%Y], for the years that a [datetime] can hold, as the C library
    writes it on Linux: the number of the year without padding, which has
    four digits from the year 1000 on. *)
Definition year_text (y : nat) : string :=
  if y <? 1000 then decimal 3 y EmptyString else pad4 y.

Definition strftime (d : datetime) : string :=
  year_text (year d) +:+ "-" +:+ pad2 (month d) +:+ "-" +:+ pad2 (day d)
  +:+ " "
  +:+ pad2 (hour d) +:+ ":" +:+ pad2 (minute d) +:+ ":" +:+ pad2 (second d).

End DateTime.

Import DateTime.

(** ** The validator interface

    [manager.py] imports [RegistrationValidator] from [validator.py], which
    is not among the sources: its three static methods are taken as the
    members of a class.  Each returns the pair (valid, message). *)

Class RegistrationValidator : Type := {
  validate_name : string -> bool * string;
  validate_email : string -> bool * string;
  validate_date_of_birth : string -> bool * string
}.

(** ** [RegistrationManager] *)

Module Manager.

(** The state: the contents of the file at [self.csv_file]; [None] when no
    such file exists. *)
Definition fstate : Type := option string.

(** Computations that read and write the file and may raise. *)
Definition M (A : Type) : Type := fstate -> outcome A * fstate.

Definition mret {A : Type} (a : A) : M A := fun fs => (Returns a, fs).

Definition mbind {A B : Type} (m : M A) (k : A -> M B) : M B :=
  fun fs =>
    match m fs with
    | (Returns a, fs') => k a fs'
    | (Raises e, fs') => (Raises e, fs')
    end.

Definition lift {A : Type} (x : outcome A) : M A := fun fs => (x, fs).

Notation "m >>= k" := (mbind m k) (at level 50, left associativity).

(** [os.path.exists(self.csv_file)] *)
Definition path_exists : M bool :=
  fun fs => (Returns (match fs with Some _ => true | None => false end), fs).

(** [open(self.csv_file, 'w', newline='')] followed by one write: the file
    is created or truncated. *)
Definition open_w_write (text : string) : M unit :=
  fun _ => (Returns tt, Some text).

(** [open(self.csv_file, 'a', newline='')] followed by one write: the text
    goes to the end of the file, which is created when absent. *)
Definition open_a_write (text : string) : M unit :=
  fun fs => (Returns tt, Some (default EmptyString fs +:+ text)).

(** [open(self.csv_file, 'r')] and iteration over the lines. *)
Definition open_r_lines : M (list string) :=
  fun fs =>
    match fs with
    | Some text => (Returns (iter_lines (universal_newlines text)), fs)
    | None => (Raises FileNotFoundError, fs)
    end.

Definition REQUIRED_FIELDS : list string :=
  ["Name"; "Email"; "Date_of_Birth"; "Registration_Date"].

(** The dict returned by [get_all_registrations] and by
    [search_registrations]; the key "count" is absent from one of them. *)
Record listing : Type := mkListing {
  l_success : bool;
  l_count : option nat;
  l_data : list pydict
}.

(** The three dicts returned by [add_registration]. *)
Inductive add_result : Type :=
| ValidationFailed (details : list string)
    (* success False, error "Validation failed", details *)
| DuplicateEmail
    (* success False, error "Email already registered" *)
| Success (message : string) (data : pydict).
    (* success True, message, data *)

Definition a_success (r : add_result) : bool :=
  match r with Success _ _ => true | _ => false end.

Definition a_error (r : add_result) : option string :=
  match r with
  | ValidationFailed _ => Some "Validation failed"
  | DuplicateEmail => Some "Email already registered"
  | Success _ _ => None
  end.

(** [r[key]] *)
Definition getitem (r : pydict) (key : string) : outcome value :=
  match r !! Some key with
  | Some v => Returns v
  | None => Raises (KeyError key)
  end.

(** [v.lower()]: only a string has the method. *)
Definition value_lower (v : value) : outcome string :=
  match v with
  | VStr s => Returns (lower s)
  | VNone | VList _ => Raises AttributeError
  end.

Definition ensure_csv_exists : M unit :=
  path_exists >>= fun e =>
  if negb e then open_w_write (writerow REQUIRED_FIELDS) else mret tt.

(** [RegistrationManager(csv_file)] *)
Definition init : M unit := ensure_csv_exists.

Definition get_all_registrations : M listing :=
  path_exists >>= fun e =>
  if negb e
  then mret {| l_success := true; l_count := Some 0; l_data := [] |}
  else open_r_lines >>= fun lines =>
       lift (reader_list lines) >>= fun records =>
       mret {| l_success := true; l_count := None;
               l_data := DictReader.rows records |}.

(** The test of the list comprehension in [search_registrations]; [or]
    evaluates its second operand only when the first is false. *)
Definition search_test (query : string) (r : pydict) : outcome bool :=
  obind (obind (getitem r "Name") value_lower) (fun n =>
    if contains query n then Returns true
    else obind (obind (getitem r "Email") value_lower) (fun e =>
           Returns (contains query e))).

Fixpoint search_filter (query : string) (data : list pydict)
  : outcome (list pydict) :=
  match data with
  | [] => Returns []
  | r :: data' =>
      obind (search_test query r) (fun keep =>
        obind (search_filter query data') (fun rest =>
          Returns (if keep then r :: rest else rest)))
  end.

Definition search_registrations (query : string) : M listing :=
  let query := strip (lower query) in
  get_all_registrations >>= fun l =>
  lift (search_filter query (l_data l)) >>= fun results =>
  mret {| l_success := true; l_count := Some (length results);
          l_data := results |}.

(** The generator inside [any] of [email_exists]: records are visited in
    order and the visit stops at the first match. *)
Fixpoint any_email (email : string) (data : list pydict) : outcome bool :=
  match data with
  | [] => Returns false
  | r :: data' =>
      obind (obind (getitem r "Email") value_lower) (fun e =>
        if String.eqb e (lower email) then Returns true
        else any_email email data')
  end.

Definition email_exists (email : string) : M bool :=
  get_all_registrations >>= fun l =>
  lift (any_email email (l_data l)).

Section WithValidator.

Context `{V : RegistrationValidator}.

Definition add_registration (name email dob : string) (now : datetime)
  : M add_result :=
  let '(name_valid, name_msg) := validate_name name in
  let '(email_valid, email_msg) := validate_email email in
  let '(dob_valid, dob_msg) := validate_date_of_birth dob in
  if negb (name_valid && email_valid && dob_valid)
  then mret (ValidationFailed [name_msg; email_msg; dob_msg])
  else
    email_exists email >>= fun dup =>
    if dup then mret DuplicateEmail
    else
      let registration_date := strftime now in
      open_a_write
        (writerow [strip name; strip email; dob; registration_date])
      >>= fun _ =>
      mret (Success ("Registered " +:+ name)
              (<[Some "Registration_Date" := VStr registration_date]>
                 (<[Some "Date_of_Birth" := VStr dob]>
                    (<[Some "Email" := VStr email]>
                       (<[Some "Name" := VStr name]> ∅))))).

End WithValidator.

End Manager.

(** ** A validator to run the manager with *)

Module Sample.

Definition is_upper (c : ascii) : bool :=
  let n := nat_of_ascii c in (65 <=? n) && (n <=? 90).

Definition is_lower (c : ascii) : bool :=
  let n := nat_of_ascii c in (97 <=? n) && (n <=? 122).

Definition is_letter (c : ascii) : bool := is_upper c || is_lower c.

Definition is_digit (c : ascii) : bool :=
  let n := nat_of_ascii c in (48 <=? n) && (n <=? 57).

Fixpoint all_chars (p : ascii -> bool) (s : string) : bool :=
  match s with
  | EmptyString => true
  | String c s' => p c && all_chars p s'
  end.

Definition name_char (c : ascii) : bool :=
  is_letter c || mem c " -'.".

Definition local_char (c : ascii) : bool :=
  is_letter c || is_digit c || mem c "._%+-".

Definition domain_char (c : ascii) : bool :=
  is_letter c || is_digit c || mem c ".-".

(** The text before the first occurrence of [d] and the text after it. *)
Fixpoint split_first (d : ascii) (s : string) : option (string * string) :=
  match s with
  | EmptyString => None
  | String c s' =>
      if Ascii.eqb c d then Some (EmptyString, s')
      else match split_first d s' with
           | Some (a, b) => Some (String c a, b)
           | None => None
           end
  end.

(** The text before the last occurrence of [d] and the text after it. *)
Fixpoint split_last (d : ascii) (s : string) : option (string * string) :=
  match s with
  | EmptyString => None
  | String c s' =>
      match split_last d s' with
      | Some (a, b) => Some (String c a, b)
      | None => if Ascii.eqb c d then Some (EmptyString, s') else None
      end
  end.

Definition nonempty (s : string) : bool :=
  match s with EmptyString => false | String _ _ => true end.

Definition email_shape (s : string) : bool :=
  match split_first "@" s with
  | None => false
  | Some (local, domain) =>
      nonempty local && all_chars local_char local
      && match split_last "." domain with
         | None => false
         | Some (host, tld) =>
             nonempty host && all_chars domain_char host
             && (2 <=? String.length tld) && all_chars is_letter tld
         end
  end.

Definition digit_val (c : ascii) : nat := nat_of_ascii c - 48.

(** A date of the fixed shape YYYY-MM-DD, as (year, month, day). *)
Definition parse_date (s : string) : option (nat * nat * nat) :=
  match s with
  | String y1 (String y2 (String y3 (String y4 (String h1
      (String m1 (String m2 (String h2 (String d1 (String d2 EmptyString))))))))) =>
      if all_chars is_digit
           (String y1 (String y2 (String y3 (String y4
              (String m1 (String m2 (String d1 (String d2 EmptyString))))))))
         && Ascii.eqb h1 "-" && Ascii.eqb h2 "-"
      then Some (1000 * digit_val y1 + 100 * digit_val y2
                 + 10 * digit_val y3 + digit_val y4,
                 10 * digit_val m1 + digit_val m2,
                 10 * digit_val d1 + digit_val d2)
      else None
  | _ => None
  end.

Definition leap (y : nat) : bool :=
  ((y mod 4 =? 0) && negb (y mod 100 =? 0)) || (y mod 400 =? 0).

Definition days_in_month (y m : nat) : nat :=
  match m with
  | 1 | 3 | 5 | 7 | 8 | 10 | 12 => 31
  | 4 | 6 | 9 | 11 => 30
  | 2 => if leap y then 29 else 28
  | _ => 0
  end.

Definition calendar_date (d : nat * nat * nat) : bool :=
  let '(y, m, dd) := d in
  (1 <=? y) && (1 <=? dd) && (dd <=? days_in_month y m).

(** Dates in lexicographic order. *)
Definition date_le (a b : nat * nat * nat) : bool :=
  let '(y1, m1, d1) := a in
  let '(y2, m2, d2) := b in
  (y1 <? y2) || ((y1 =? y2) && ((m1 <? m2) || ((m1 =? m2) && (d1 <=? d2)))).

Definition MIN_NAME_LENGTH : nat := 2.
Definition MAX_AGE : nat := 120.

Section Today.

(** The day on which the validation runs. *)
Variable today : nat * nat * nat.

(** Modelled from the spec: [validate_name] of the missing [validator.py]
    (spec 4.1): the name is trimmed, then checked for emptiness, minimum
    length and allowed characters. *)
Definition sample_validate_name (name : string) : bool * string :=
  let n := strip name in
  if negb (nonempty n) || (String.length n <? MIN_NAME_LENGTH)
     || negb (all_chars name_char n)
  then (false, "InvalidName")
  else (true, EmptyString).

(** Modelled from the spec: [validate_email] of the missing
    [validator.py] (spec 4.1): the string itself has the shape local part,
    at sign, domain with a dot; it is not trimmed first. *)
Definition sample_validate_email (email : string) : bool * string :=
  if email_shape email then (true, EmptyString)
  else (false, "InvalidEmail").

(** Modelled from the spec: [validate_date_of_birth] of the missing
    [validator.py] (spec 4.1): a calendar date written YYYY-MM-DD, not in
    the future and not beyond the maximum age. *)
Definition sample_validate_date_of_birth (dob : string) : bool * string :=
  match parse_date dob with
  | None => (false, "InvalidDateFormat")
  | Some d =>
      if negb (calendar_date d) then (false, "InvalidDateFormat")
      else
        let '(y, m, dd) := d in
        if date_le d today && date_le today (y + MAX_AGE, m, dd)
        then (true, EmptyString)
        else (false, "InvalidDateRange")
  end.

(** Modelled from the spec: [validator.py] is missing from the sources.
    The spec (4.1) gives the three checks: a name fails when, after
    trimming, it is empty, shorter than a minimum length or holds a
    character not allowed in a display name; an email fails when it does
    not have the shape local-part, at sign, domain with a dot; a date of
    birth fails when it is not a calendar date written YYYY-MM-DD, or lies
    in the future or beyond a maximum age.  The spec leaves the thresholds
    to the implementer: [MIN_NAME_LENGTH] and [MAX_AGE] are picked here,
    and no maximum length is set, as the spec sets none.  Trimming is
    stated for the name only: the email is matched as it is given. *)
Definition SampleValidator : RegistrationValidator :=
  {| validate_name := sample_validate_name;
     validate_email := sample_validate_email;
     validate_date_of_birth := sample_validate_date_of_birth |}.

End Today.

End Sample.

Import Manager.

(** ** The files the store writes *)

Module Store.

(** Reading a text from parser state [r]. *)
Definition read_text (r : reader) (s : string) : outcome (list (list string)) :=
  read_records r (iter_lines s).

(** One data line of the file: the four fields that [add_registration]
    hands to [writerow]. *)
Record entry : Type := mkEntry {
  e_name : string;
  e_email : string;
  e_dob : string;
  e_date : string
}.

Definition entry_row (e : entry) : list string :=
  [e_name e; e_email e; e_dob e; e_date e].

Definition header_line : string := writerow REQUIRED_FIELDS.

Fixpoint data_lines (es : list entry) : string :=
  match es with
  | [] => EmptyString
  | e :: es' => writerow (entry_row e) +:+ data_lines es'
  end.

(** The text of a file that holds the header line and one line per entry,
    each as [writerow] writes it. *)
Definition file_text (es : list entry) : string :=
  header_line +:+ data_lines es.

(** The state of a store that holds the entries [es]. *)
Definition store_of (es : list entry) : fstate := Some (file_text es).

(** A text that the reader accepts as one field: it has no more
    characters than the field size limit. *)
Definition fits (s : string) : Prop :=
  (N.of_nat (String.length s) <= field_size_limit)%N.

(** An entry whose four fields the reader accepts. *)
Definition entry_fits (e : entry) : Prop := Forall fits (entry_row e).

(** The dict that [csv.DictReader] yields for the line of an entry. *)
Definition listed (e : entry) : pydict :=
  DictReader.make_row REQUIRED_FIELDS (map universal_newlines (entry_row e)).

(** The entry that a successful [add_registration] appends. *)
Definition new_entry (name email dob : string) (now : datetime) : entry :=
  {| e_name := strip name; e_email := strip email; e_dob := dob;
     e_date := strftime now |}.

(** The comparison of [email_exists] on the email of a listed entry. *)
Definition same_email (email : string) (e : entry) : bool :=
  String.eqb (lower (universal_newlines (e_email e))) (lower email).

(** The test of [search_registrations] on a listed entry, for the query
    after [lower] and [strip]. *)
Definition matches (query : string) (e : entry) : bool :=
  contains query (lower (universal_newlines (e_name e)))
  || contains query (lower (universal_newlines (e_email e))).

Section Validity.

Context `{V : RegistrationValidator}.

(** All three validators accept. *)
Definition all_valid (name email dob : string) : bool :=
  fst (validate_name name) && fst (validate_email email)
  && fst (validate_date_of_birth dob).

(** The list of messages that a failed validation carries. *)
Definition messages (name email dob : string) : list string :=
  [snd (validate_name name); snd (validate_email email);
   snd (validate_date_of_birth dob)].

End Validity.

(** The first and the last character of a string are no whitespace. *)
Definition starts_nonspace (s : string) : bool :=
  match s with
  | EmptyString => false
  | String c _ => negb (isspace c)
  end.

Fixpoint ends_nonspace (s : string) : bool :=
  match s with
  | EmptyString => false
  | String c EmptyString => negb (isspace c)
  | String _ s' => ends_nonspace s'
  end.

(** The listed email of an entry has no surrounding whitespace. *)
Definition email_trimmed (e : entry) : Prop :=
  strip (universal_newlines (e_email e)) = universal_newlines (e_email e).

(** [r[key]] when it is a string. *)
Definition str_field (r : pydict) (key : string) : option string :=
  match r !! Some key with
  | Some (VStr s) => Some s
  | _ => None
  end.

(** A record with a name and an email, as the data model has it. *)
Definition well_keyed (r : pydict) : Prop :=
  is_Some (str_field r "Name") /\ is_Some (str_field r "Email").

(** The record's name or email holds [needle], letter case of the record
    aside. *)
Definition record_matches (needle : string) (r : pydict) : bool :=
  match str_field r "Name", str_field r "Email" with
  | Some n, Some e => contains needle (lower n) || contains needle (lower e)
  | _, _ => false
  end.


(** The record's email equals [email], letter case aside. *)
Definition record_same_email (email : string) (r : pydict) : bool :=
  match str_field r "Email" with
  | Some e => String.eqb (lower e) (lower email)
  | None => false
  end.

(** Sequences of calls on one manager. *)
Inductive op : Type :=
| OpAdd (name email dob : string) (now : datetime)
| OpList
| OpSearch (query : string).

(** A call that adds, if it adds at all, fields that the reader accepts:
    the trimmed name, the trimmed email and the date of birth are within
    the field size limit. *)
Definition fitting_op (o : op) : Prop :=
  match o with
  | OpAdd name email dob _ =>
      fits (strip name) /\ fits (strip email) /\ fits dob
  | OpList | OpSearch _ => True
  end.

Section Run.

Context `{V : RegistrationValidator}.

Definition run_op (fs : fstate) (o : op) : fstate :=
  match o with
  | OpAdd name email dob now => snd (add_registration name email dob now fs)
  | OpList => snd (get_all_registrations fs)
  | OpSearch query => snd (search_registrations query fs)
  end.

Definition run_ops (ops : list op) (fs : fstate) : fstate :=
  fold_left run_op ops fs.

End Run.

End Store.

Import Store.

(** ** Concrete runs *)

Module Scenario.

Definition today : nat * nat * nat := (2026, 11, 3).

Definition V0 : RegistrationValidator := Sample.SampleValidator today.

Definition clock1 : datetime := mkDatetime 2026 11 3 9 5 7.
Definition clock2 : datetime := mkDatetime 2026 11 3 9 6 30.

(** A store constructed where no file was. *)
Definition fresh : fstate := snd (init None).

(** The store of the duplicate-email example. *)
Definition store_john : fstate :=
  snd (add_registration (V := V0)
         "John Doe" "john@example.com" "1990-01-15" clock1 fresh).

(** The store of the search example. *)
Definition store_doe_roe : fstate :=
  snd (add_registration (V := V0) "Jane Roe" "jane@x.com" "1992-07-04" clock2
         (snd (add_registration (V := V0)
                 "John Doe" "john@x.com" "1990-01-15" clock1 fresh))).

(** The lines of those stores. *)
Definition john : entry :=
  mkEntry "John Doe" "john@example.com" "1990-01-15" "2026-11-03 09:05:07".

Definition john_x : entry :=
  mkEntry "John Doe" "john@x.com" "1990-01-15" "2026-11-03 09:05:07".

Definition jane_x : entry :=
  mkEntry "Jane Roe" "jane@x.com" "1992-07-04" "2026-11-03 09:06:30".

(** A name of one character more than the field size limit. *)
Definition long_name : string := times "a"%char (N.to_nat 131073).

End Scenario.

(** ** The tool adapters: [tools/add_registrations.py] and
    [tools/get_all_registrations.py]

    Each module builds its own [RegistrationManager()] on the default file
    and formats the dict that the manager returns as one text.  The three
    pictographs of the texts lie beyond U+00FF: each stands in the
    literals below as the bytes of its UTF-8 encoding, which nothing
    reads. *)

Module Tools.

(** [mcp.types.TextContent] *)
Record TextContent : Type := mkTextContent {
  tc_type : string;
  tc_text : string
}.

Definition NEWLINE : string := String LF EmptyString.

(** [str(i)] for an index of [enumerate]: decimal digits, most significant
    first. *)
Fixpoint digits (fuel n : nat) (acc : string) : string :=
  match fuel with
  | 0 => acc
  | S fuel' =>
      let acc' := String (digit n) acc in
      if n <? 10 then acc' else digits fuel' (n / 10) acc'
  end.

Definition str_int (n : nat) : string := digits (S n) n EmptyString.

Section Formatting.

(** [repr] of a list of strings, a builtin that is not modelled: a list
    is held only under the key [None], which the tools never read. *)
Variable list_repr : list string -> string.

(** What an f-string makes of a value of a row. *)
Definition format_value (v : value) : string :=
  match v with
  | VStr s => s
  | VNone => "None"
  | VList l => list_repr l
  end.

(** The replacement field [{reg[key]}]. *)
Definition format_item (reg : pydict) (key : string) : outcome string :=
  omap format_value (getitem reg key).

(** The text that [add_registration] builds from the result of the
    manager. *)
Definition add_message (result : add_result) : outcome string :=
  match result with
  | Success message data =>
      obind (format_item data "Name") (fun name =>
      obind (format_item data "Email") (fun email =>
      obind (format_item data "Date_of_Birth") (fun dob =>
      obind (format_item data "Registration_Date") (fun date =>
        Returns ("✅ SUCCESS: " +:+ message +:+ NEWLINE
                 +:+ "Name: " +:+ name +:+ NEWLINE
                 +:+ "Email: " +:+ email +:+ NEWLINE
                 +:+ "DOB: " +:+ dob +:+ NEWLINE
                 +:+ "Registered: " +:+ date)))))
  | ValidationFailed details =>
      Returns ("❌ ERROR: " +:+ "Validation failed"
               +:+ NEWLINE +:+ String.concat NEWLINE details)
  | DuplicateEmail =>
      Returns ("❌ ERROR: " +:+ "Email already registered")
  end.

(** One turn of the loop over [enumerate(registrations, 1)]. *)
Definition format_row (i : nat) (reg : pydict) : outcome string :=
  obind (format_item reg "Name") (fun name =>
  obind (format_item reg "Email") (fun email =>
  obind (format_item reg "Date_of_Birth") (fun dob =>
  obind (format_item reg "Registration_Date") (fun date =>
    Returns (str_int i +:+ ". " +:+ name +:+ " | " +:+ email +:+ " | "
             +:+ dob +:+ " | " +:+ date +:+ NEWLINE))))).

Fixpoint format_rows (i : nat) (msg : string) (regs : list pydict)
  : outcome string :=
  match regs with
  | [] => Returns msg
  | reg :: regs' =>
      obind (format_row i reg) (fun line =>
        format_rows (S i) (msg +:+ line) regs')
  end.

Definition NO_REGISTRATIONS : string := "ℹ️ No registrations found.".

Definition ALL_REGISTRATIONS : string :=
  "**All Registrations:**" +:+ NEWLINE +:+ NEWLINE.

(** The text that [get_all_registration] builds; the dict of the manager
    has no key "error", so the branch for a false "success" raises. *)
Definition get_all_message (result : listing) : outcome string :=
  if l_success result then
    match l_data result with
    | [] => Returns NO_REGISTRATIONS
    | _ :: _ => format_rows 1 ALL_REGISTRATIONS (l_data result)
    end
  else Raises (KeyError "error").

Definition get_all_registration : M (list TextContent) :=
  get_all_registrations >>= fun result =>
  lift (get_all_message result) >>= fun msg =>
  mret [mkTextContent "text" msg].

Context `{V : RegistrationValidator}.

Definition add_registration (name email dob : string) (now : datetime)
  : M (list TextContent) :=
  Manager.add_registration name email dob now >>= fun result =>
  lift (add_message result) >>= fun msg =>
  mret [mkTextContent "text" msg].

End Formatting.

End Tools.

(** ** The HTTP endpoints: [api.py] *)

Module Api.

(** What an endpoint does: it returns the list under the key "result",
    or raises [HTTPException]; the detail of the exception is a fixed
    prefix followed by [str(e)] of the exception caught, kept here as the
    exception itself. *)
Inductive http_outcome : Type :=
| Responds (result : list string)
| HTTPException (status_code : nat) (detail_prefix : string) (cause : exn).

Section Endpoints.

Variable list_repr : list string -> string.

(** The [try] ... [except Exception] of both endpoints. *)
Definition respond (status_code : nat) (detail_prefix : string)
    (tool : M (list Tools.TextContent)) : fstate -> http_outcome * fstate :=
  fun fs =>
    match tool fs with
    | (Returns response, fs') => (Responds (map Tools.tc_text response), fs')
    | (Raises e, fs') => (HTTPException status_code detail_prefix e, fs')
    end.

Definition get_all_registrations_http : fstate -> http_outcome * fstate :=
  respond 500 "Failed to fetch registrations: "
          (Tools.get_all_registration list_repr).

Context `{V : RegistrationValidator}.

Definition add_registration_http (name email dob : string) (now : datetime)
  : fstate -> http_outcome * fstate :=
  respond 400 "Registration failed: "
          (Tools.add_registration list_repr name email dob now).

End Endpoints.

End Api.

(** ** More about the files of the store *)

Module StoreFacts.

(** A record that has the four fields of the header as strings. *)
Definition full_record (r : pydict) : Prop :=
  is_Some (str_field r "Name") /\ is_Some (str_field r "Email")
  /\ is_Some (str_field r "Date_of_Birth")
  /\ is_Some (str_field r "Registration_Date").

(** No carriage return in any of the four fields. *)
Definition no_CR_record (r : pydict) : Prop :=
  forall key s, str_field r key = Some s -> mem CR s = false.

(** The email of a record, lower-cased: what the duplicate check
    compares. *)
Definition record_email_key (r : pydict) : option string :=
  option_map lower (str_field r "Email").

Definition email_key (e : entry) : string :=
  lower (universal_newlines (e_email e)).

(** A call that adds, if it adds at all, an email without surrounding
    whitespace and without carriage return. *)
Definition clean_op (o : op) : Prop :=
  match o with
  | OpAdd _ email _ _ =>
      strip email = email /\ universal_newlines email = email
  | OpList | OpSearch _ => True
  end.

Definition is_add (o : op) : bool :=
  match o with OpAdd _ _ _ _ => true | _ => false end.

(** The line of the report of [get_all_registration] for the [i]-th
    entry. *)
Definition report_line (i : nat) (e : entry) : string :=
  Tools.str_int i +:+ ". " +:+ universal_newlines (e_name e)
  +:+ " | " +:+ universal_newlines (e_email e)
  +:+ " | " +:+ universal_newlines (e_dob e)
  +:+ " | " +:+ universal_newlines (e_date e) +:+ Tools.NEWLINE.

Fixpoint report_lines (i : nat) (es : list entry) : string :=
  match es with
  | [] => EmptyString
  | e :: es' => report_line i e +:+ report_lines (S i) es'
  end.

(** The name of a record holds the needle, or its email does, where a
    missing field holds nothing. *)
Definition name_matches (needle : string) (r : pydict) : bool :=
  match str_field r "Name" with
  | Some n => contains needle (lower n)
  | None => false
  end.

Definition email_matches (needle : string) (r : pydict) : bool :=
  match str_field r "Email" with
  | Some e => contains needle (lower e)
  | None => false
  end.

(** A record that the search can test: it has a name, and an email
    unless the name already matches. *)
Definition searchable (needle : string) (r : pydict) : Prop :=
  is_Some (str_field r "Name")
  /\ (name_matches needle r = true \/ is_Some (str_field r "Email")).

(** The record that a successful [add_registration] returns under the
    key "data". *)
Definition echoed (name email dob : string) (now : datetime) : pydict :=
  <[Some "Registration_Date" := VStr (strftime now)]>
    (<[Some "Date_of_Birth" := VStr dob]>
       (<[Some "Email" := VStr email]>
          (<[Some "Name" := VStr name]> ∅))).

(** The text of the add tool for a success. *)
Definition success_text (name email dob : string) (now : datetime) : string :=
  "✅ SUCCESS: " +:+ ("Registered " +:+ name) +:+ Tools.NEWLINE
  +:+ "Name: " +:+ name +:+ Tools.NEWLINE
  +:+ "Email: " +:+ email +:+ Tools.NEWLINE
  +:+ "DOB: " +:+ dob +:+ Tools.NEWLINE
  +:+ "Registered: " +:+ strftime now.

End StoreFacts.

Import StoreFacts.

(** ** More concrete runs *)

Module Damage.

(** The file of the store with one registration, followed by a line that
    has a name and nothing else, as a cut-off write would leave it. *)
Definition short_line_store : fstate :=
  Some (file_text [Scenario.john] +:+ writerow ["Jane"]).

Definition short_record : pydict :=
  DictReader.make_row REQUIRED_FIELDS ["Jane"].

(** A file made elsewhere, whose header has other columns. *)
Definition foreign_store : fstate :=
  Some (writerow ["Email"; "Phone"] +:+ writerow ["a@b.co"; "555"]).

Definition foreign_record : pydict :=
  DictReader.make_row ["Email"; "Phone"] ["a@b.co"; "555"].

(** A stand-in for the [repr] of a list, which no run below calls. *)
Definition no_repr (l : list string) : string := EmptyString.

End Damage.

(** * Properties *)

(** ** The model on concrete inputs *)

Example lower_example : lower "JOHN@Example.COM" = "john@example.com".
Proof. reflexivity. Qed.

Example strip_example : strip "  John Doe   " = "John Doe".
Proof. reflexivity. Qed.

Example contains_example : contains "doe" (lower "John Doe") = true.
Proof. reflexivity. Qed.

Example universal_newlines_example :
  universal_newlines (String "a" (String CR (String LF (String "b" (String CR (String "c" EmptyString))))))
  = String "a" (String LF (String "b" (String LF (String "c" EmptyString)))).
Proof. reflexivity. Qed.

Example iter_lines_example :
  iter_lines (String "a" (String LF (String LF (String "b" EmptyString))))
  = [String "a" (String LF EmptyString); String LF EmptyString; "b"].
Proof. reflexivity. Qed.


Example writerow_example :
  writerow ["Doe, John"; "a" +:+ String DQUOTE "b"; EmptyString]
  = String DQUOTE "Doe, John" +:+ String DQUOTE ","
    +:+ String DQUOTE "a" +:+ String DQUOTE (String DQUOTE "b")
    +:+ String DQUOTE "," +:+ String CR (String LF EmptyString).
Proof. vm_compute. reflexivity. Qed.

Example reader_example :
  reader_list
    (iter_lines
       (universal_newlines
          (writerow ["x"; "two" +:+ String CR (String LF "lines")]
           +:+ String CR (String LF EmptyString)
           +:+ writerow ["a"; "b"; "c"])))
  = Returns [["x"; "two" +:+ String LF "lines"]; []; ["a"; "b"; "c"]].
Proof. vm_compute. reflexivity. Qed.

Example dict_reader_example :
  DictReader.rows [["k1"; "k2"]; ["a"]; []; ["b"; "c"; "d"; "e"]]
  = [<[Some "k2" := VNone]> (<[Some "k1" := VStr "a"]> ∅);
     <[None := VList ["d"; "e"]]>
       (<[Some "k2" := VStr "c"]> (<[Some "k1" := VStr "b"]> ∅))].
Proof. vm_compute. reflexivity. Qed.

Example strftime_example :
  strftime (mkDatetime 2026 11 3 9 5 7) = "2026-11-03 09:05:07".
Proof. vm_compute. reflexivity. Qed.

Example fresh_store_example :
  Scenario.fresh
  = Some ("Name,Email,Date_of_Birth,Registration_Date"
          +:+ String CR (String LF EmptyString)).
Proof. vm_compute. reflexivity. Qed.

Example store_john_example :
  Scenario.store_john
  = Some ("Name,Email,Date_of_Birth,Registration_Date"
          +:+ String CR (String LF
                "John Doe,john@example.com,1990-01-15,2026-11-03 09:05:07")
          +:+ String CR (String LF EmptyString)).
Proof. vm_compute. reflexivity. Qed.

Example sample_validator_example :
  map (validate_date_of_birth (RegistrationValidator := Scenario.V0))
      ["1990-01-15"; "15-01-1990"; "1990/01/15"; "1990-02-30"; "2999-01-01";
       "1890-01-01"]
  = [(true, EmptyString); (false, "InvalidDateFormat");
     (false, "InvalidDateFormat"); (false, "InvalidDateFormat");
     (false, "InvalidDateRange"); (false, "InvalidDateRange")].
Proof. vm_compute. reflexivity. Qed.

(** ** Strings *)

Section StringFacts.

Lemma append_nil_l (s : string) : EmptyString +:+ s = s.
Proof. reflexivity. Qed.

Lemma append_cons (c : ascii) (s t : string) :
  String c s +:+ t = String c (s +:+ t).
Proof. reflexivity. Qed.

Lemma append_nil_r (s : string) : s +:+ EmptyString = s.
Proof. induction s as [|c s IH]; [reflexivity|]. rewrite append_cons. by f_equal. Qed.

Lemma append_assoc (s t u : string) : (s +:+ t) +:+ u = s +:+ (t +:+ u).
Proof.
  induction s as [|c s IH]; [reflexivity|].
  rewrite !append_cons. by f_equal.
Qed.

Lemma append_cons_ne (s : string) (c : ascii) (t : string) :
  s +:+ String c t <> EmptyString.
Proof. by destruct s. Qed.

Lemma length_append (s t : string) :
  String.length (s +:+ t) = String.length s + String.length t.
Proof.
  induction s as [|c s IH]; [reflexivity|].
  rewrite append_cons. simpl. by rewrite IH.
Qed.

End StringFacts.

(** ** Universal newlines *)

Section Translate.

Lemma eqb_CR_LF : Ascii.eqb CR LF = false.
Proof. reflexivity. Qed.

(** Translation stops at a CR and resumes after it with the flag raised. *)
Lemma translate_app_CR (b : bool) (s t : string) :
  translate b (s +:+ String CR t) = translate b s +:+ String LF (translate true t).
Proof.
  revert b. induction s as [|c s IH]; intros b.
  - rewrite !append_nil_l. simpl. reflexivity.
  - rewrite append_cons. simpl.
    destruct (Ascii.eqb c CR); [by rewrite IH|].
    destruct (Ascii.eqb c LF && b); by rewrite IH.
Qed.

(** The same for a character that is no line break. *)
Lemma translate_app_char (b : bool) (s : string) (c : ascii) (t : string) :
  Ascii.eqb c CR = false -> Ascii.eqb c LF = false ->
  translate b (s +:+ String c t) = translate b s +:+ String c (translate false t).
Proof.
  intros Hcr Hlf. revert b. induction s as [|d s IH]; intros b.
  - rewrite !append_nil_l. simpl. by rewrite Hcr, Hlf.
  - rewrite append_cons. simpl.
    destruct (Ascii.eqb d CR); [by rewrite IH|].
    destruct (Ascii.eqb d LF && b); by rewrite IH.
Qed.

(** A CR LF terminator reads as one LF, and the text after it is
    translated afresh. *)
Lemma translate_app_CRLF (b : bool) (s t : string) :
  translate b (s +:+ String CR (String LF t))
  = translate b s +:+ String LF (translate false t).
Proof. rewrite translate_app_CR. reflexivity. Qed.

Lemma needs_quote_false (c : ascii) :
  needs_quote c = false ->
  Ascii.eqb c COMMA = false /\ Ascii.eqb c DQUOTE = false
  /\ Ascii.eqb c CR = false /\ Ascii.eqb c LF = false.
Proof.
  unfold needs_quote. intros H.
  destruct (Ascii.eqb c COMMA), (Ascii.eqb c DQUOTE), (Ascii.eqb c CR),
    (Ascii.eqb c LF); naive_solver.
Qed.

Lemma must_quote_cons_false (c : ascii) (s : string) :
  must_quote (String c s) = false -> needs_quote c = false /\ must_quote s = false.
Proof. simpl. intros H. by apply orb_false_elim in H. Qed.

(** A field written without quotes holds no line break: reading leaves it
    as it is. *)
Lemma translate_plain (b : bool) (s : string) :
  must_quote s = false -> translate b s = s.
Proof.
  revert b. induction s as [|c s IH]; intros b H; [reflexivity|].
  apply must_quote_cons_false in H as [Hc Hs].
  apply needs_quote_false in Hc as (_ & _ & Hcr & Hlf).
  simpl. rewrite Hcr, Hlf. simpl. by rewrite IH.
Qed.

Lemma must_quote_translate (s : string) :
  must_quote (universal_newlines s) = must_quote s.
Proof.
  unfold universal_newlines.
  induction s as [|c s IH]; [reflexivity|].
  simpl. destruct (Ascii.eqb c CR) eqn:Hcr.
  - apply Ascii.eqb_eq in Hcr as ->. reflexivity.
  - rewrite andb_false_r. simpl. by rewrite IH.
Qed.

Lemma double_quotes_translate (b : bool) (s : string) :
  translate b (double_quotes s) = double_quotes (translate b s).
Proof.
  revert b. induction s as [|c s IH]; intros b; [reflexivity|].
  simpl. destruct (Ascii.eqb c DQUOTE) eqn:Hq.
  - apply Ascii.eqb_eq in Hq as ->. simpl. by rewrite IH.
  - simpl. destruct (Ascii.eqb c CR) eqn:Hcr.
    + simpl. by rewrite IH.
    + destruct (Ascii.eqb c LF && b); [by rewrite IH|].
      simpl. by rewrite Hq, IH.
Qed.

Lemma write_field_translate (s : string) :
  universal_newlines (write_field s) = write_field (universal_newlines s).
Proof.
  unfold write_field. rewrite must_quote_translate.
  destruct (must_quote s) eqn:Hq.
  - unfold universal_newlines. simpl.
    rewrite (translate_app_char false (double_quotes s) DQUOTE EmptyString)
      by reflexivity.
    by rewrite double_quotes_translate.
  - unfold universal_newlines. by rewrite !translate_plain.
Qed.

Lemma join_fields_translate (row : list string) :
  universal_newlines (join_fields row) = join_fields (map universal_newlines row).
Proof.
  induction row as [|f row IH]; [reflexivity|].
  destruct row as [|g row].
  - simpl. apply write_field_translate.
  - change (join_fields (f :: g :: row))
      with (write_field f +:+ String COMMA (join_fields (g :: row))).
    change (join_fields (map universal_newlines (f :: g :: row)))
      with (write_field (universal_newlines f)
            +:+ String COMMA (join_fields (map universal_newlines (g :: row)))).
    unfold universal_newlines at 1.
    rewrite translate_app_char by reflexivity.
    fold (universal_newlines (write_field f)).
    fold (universal_newlines (join_fields (g :: row))).
    by rewrite write_field_translate, IH.
Qed.

End Translate.


(** ** The field size limit *)

Section Fits.

Lemma fits_empty : fits EmptyString.
Proof. unfold fits, field_size_limit. cbn [String.length]. lia. Qed.

Lemma fits_app_l (s t : string) : fits (s +:+ t) -> fits s.
Proof. unfold fits. rewrite length_append. lia. Qed.

Lemma fits_app_char (s : string) (c : ascii) (t : string) :
  fits (s +:+ String c t) -> fits (s +:+ String c EmptyString).
Proof. unfold fits. rewrite !length_append. cbn [String.length]. lia. Qed.

Lemma fits_shorter (s t : string) :
  String.length s <= String.length t -> fits t -> fits s.
Proof. unfold fits. lia. Qed.

Lemma length_translate (b : bool) (s : string) :
  String.length (translate b s) <= String.length s.
Proof.
  revert b. induction s as [|c s IH]; intros b; [done|].
  cbn [translate]. destruct (Ascii.eqb c CR).
  - cbn [String.length]. specialize (IH true). lia.
  - destruct (Ascii.eqb c LF && b); cbn [String.length];
      specialize (IH false); lia.
Qed.

(** What the text layer delivers of a field is no longer than the field. *)
Lemma fits_translate (s : string) : fits s -> fits (universal_newlines s).
Proof. apply fits_shorter, length_translate. Qed.

Lemma Forall_fits_translate (row : list string) :
  Forall fits row -> Forall fits (map universal_newlines row).
Proof.
  induction 1 as [|f row Hf _ IH]; cbn [map]; constructor;
    [by apply fits_translate|done].
Qed.

(** The reader takes a character as long as the field stays within the
    limit, and refuses the first one beyond it. *)
Lemma parse_add_char_fits (st : parser_state) (fs : list string) (fd : string)
      (c : ascii) :
  fits (fd +:+ String c EmptyString) ->
  parse_add_char (mkReader st fs fd) c
  = Returns (mkReader st fs (fd +:+ String c EmptyString)).
Proof.
  unfold fits, parse_add_char. rewrite length_append.
  cbn [field fields state String.length]. intros H.
  destruct (N.leb_spec field_size_limit (N.of_nat (String.length fd)));
    [lia|done].
Qed.

Lemma parse_add_char_full (st : parser_state) (fs : list string) (fd : string)
      (c : ascii) :
  ~ fits (fd +:+ String c EmptyString) ->
  parse_add_char (mkReader st fs fd) c = Raises CsvError.
Proof.
  unfold fits, parse_add_char. rewrite length_append.
  cbn [field fields state String.length]. intros H.
  destruct (N.leb_spec field_size_limit (N.of_nat (String.length fd)));
    [done|lia].
Qed.

Lemma fits_dec (s : string) : fits s \/ ~ fits s.
Proof. unfold fits. lia. Qed.

End Fits.


(** ** The reader on written records *)

Section Reader.

Lemma iter_lines_nonempty (s : string) :
  s <> EmptyString -> exists l ls, iter_lines s = l :: ls.
Proof.
  destruct s as [|c s]; [done|]. intros _. simpl.
  destruct (Ascii.eqb c LF); [eauto|].
  destruct (iter_lines s); eauto.
Qed.

(** A character other than LF, with more text behind it, is one step of
    the parser. *)
Lemma read_text_char (r : reader) (c : ascii) (s : string) :
  Ascii.eqb c LF = false -> s <> EmptyString ->
  read_text r (String c s)
  = obind (parse_process_char r (Char c)) (fun r' => read_text r' s).
Proof.
  intros Hc Hs. unfold read_text. simpl. rewrite Hc.
  destruct (iter_lines_nonempty s Hs) as (l & ls & ->).
  simpl. by destruct (parse_process_char r (Char c)).
Qed.

(** LF ends the line: the parser sees it, then the end-of-line marker. *)
Lemma read_text_LF (r : reader) (s : string) :
  read_text r (String LF s)
  = obind (parse_process_char r (Char LF)) (fun r1 =>
      obind (parse_process_char r1 EOL) (fun r2 =>
        if is_start_record r2
        then omap (cons (fields r2)) (read_text parse_reset s)
        else read_text r2 s)).
Proof.
  unfold read_text. simpl.
  by destruct (parse_process_char r (Char LF)).
Qed.

(** The first character of a record is handled as the start of a field,
    unless it is a line break. *)
Lemma read_text_start_record (c : ascii) (s : string) :
  is_newline (Char c) = false ->
  read_text parse_reset (String c s)
  = read_text (mkReader START_FIELD [] EmptyString) (String c s).
Proof.
  intros Hc. unfold read_text.
  assert (Ascii.eqb c LF = false) as Hlf.
  { simpl in Hc. by apply orb_false_elim in Hc as [? _]. }
  simpl. rewrite Hlf.
  assert (parse_process_char parse_reset (Char c)
          = parse_process_char (mkReader START_FIELD [] EmptyString) (Char c))
    as Hpc.
  { unfold parse_process_char. simpl state. rewrite Hc. reflexivity. }
  destruct (iter_lines s); simpl; by rewrite Hpc.
Qed.

(** One character of an unquoted field. *)
Lemma parse_in_field (fs : list string) (fd : string) (c : ascii) :
  needs_quote c = false ->
  parse_process_char (mkReader IN_FIELD fs fd) (Char c)
  = parse_add_char (mkReader IN_FIELD fs fd) c.
Proof.
  intros Hc. apply needs_quote_false in Hc as (Hcomma & _ & Hcr & Hlf).
  unfold parse_process_char. cbn [state is_newline]. by rewrite Hlf, Hcr, Hcomma.
Qed.

Lemma parse_start_field (fs : list string) (c : ascii) :
  needs_quote c = false ->
  parse_process_char (mkReader START_FIELD fs EmptyString) (Char c)
  = omap (set_state IN_FIELD)
         (parse_add_char (mkReader START_FIELD fs EmptyString) c).
Proof.
  intros Hc. apply needs_quote_false in Hc as (Hcomma & Hq & Hcr & Hlf).
  unfold parse_process_char, start_field. cbn [state is_newline].
  by rewrite Hlf, Hcr, Hq, Hcomma.
Qed.

(** The characters of an unquoted field are appended one by one. *)
Lemma read_plain_in_field (fs : list string) (fd s : string) (d : ascii) (t : string) :
  must_quote s = false -> fits (fd +:+ s) ->
  read_text (mkReader IN_FIELD fs fd) (s +:+ String d t)
  = read_text (mkReader IN_FIELD fs (fd +:+ s)) (String d t).
Proof.
  revert fd. induction s as [|c s IH]; intros fd H Hfit.
  - by rewrite append_nil_l, append_nil_r.
  - apply must_quote_cons_false in H as [Hc Hs].
    pose proof Hc as Hc'.
    apply needs_quote_false in Hc' as (_ & _ & _ & Hlf).
    rewrite append_cons, read_text_char; [|done|apply append_cons_ne].
    rewrite parse_in_field by done.
    rewrite parse_add_char_fits by by eapply fits_app_char.
    cbn [obind]. rewrite IH; [|done|by rewrite append_assoc].
    by rewrite append_assoc.
Qed.

Lemma read_plain_start_field (fs : list string) (c : ascii) (s : string)
      (d : ascii) (t : string) :
  must_quote (String c s) = false -> fits (String c s) ->
  read_text (mkReader START_FIELD fs EmptyString) (String c s +:+ String d t)
  = read_text (mkReader IN_FIELD fs (String c s)) (String d t).
Proof.
  intros H Hfit. apply must_quote_cons_false in H as [Hc Hs].
  pose proof Hc as Hc'.
  apply needs_quote_false in Hc' as (_ & _ & _ & Hlf).
  rewrite append_cons, read_text_char; [|done|apply append_cons_ne].
  rewrite parse_start_field by done.
  rewrite parse_add_char_fits
    by (rewrite append_nil_l; apply (fits_app_char EmptyString c s Hfit)).
  unfold omap; cbn [obind]; unfold set_state; cbn [state fields field]. rewrite append_nil_l.
  by rewrite read_plain_in_field.
Qed.

(** Inside quotes every character is data; a doubled quote stands for one
    quote, and a line break does not end the record. *)
Lemma read_quoted_body (fs : list string) (fd g : string) (d : ascii) (t : string) :
  fits (fd +:+ g) ->
  read_text (mkReader IN_QUOTED_FIELD fs fd)
            (double_quotes g +:+ String DQUOTE (String d t))
  = read_text (mkReader QUOTE_IN_QUOTED_FIELD fs (fd +:+ g)) (String d t).
Proof.
  revert fd. induction g as [|c g IH]; intros fd Hfit.
  - rewrite append_nil_l, append_nil_r, read_text_char; done.
  - assert (fits ((fd +:+ String c EmptyString) +:+ g)) as Hfit'
      by by rewrite append_assoc.
    pose proof (fits_app_char _ _ _ Hfit) as Hc.
    simpl double_quotes. destruct (Ascii.eqb c DQUOTE) eqn:Hq.
    + apply Ascii.eqb_eq in Hq as ->.
      rewrite !append_cons.
      rewrite read_text_char; [|done..].
      unfold parse_process_char at 1; cbn [state].
      change (Ascii.eqb DQUOTE DQUOTE) with true. cbv iota.
      cbn [obind]; unfold set_state; cbn [state fields field].
      rewrite read_text_char; [|done|apply append_cons_ne].
      unfold parse_process_char at 1; cbn [state].
      change (Ascii.eqb DQUOTE DQUOTE) with true. cbv iota.
      rewrite parse_add_char_fits by done.
      unfold omap; cbn [obind]; unfold set_state; cbn [state fields field].
      by rewrite IH, append_assoc.
    + rewrite append_cons. destruct (Ascii.eqb c LF) eqn:Hlf.
      * apply Ascii.eqb_eq in Hlf as ->.
        rewrite read_text_LF.
        unfold parse_process_char at 1; cbn [state].
        change (Ascii.eqb LF DQUOTE) with false. cbv iota.
        rewrite parse_add_char_fits by done.
        cbn [obind]. unfold parse_process_char at 1; cbn [state obind].
        unfold is_start_record; cbn [state].
        by rewrite IH, append_assoc.
      * rewrite read_text_char; [|done|apply append_cons_ne].
        unfold parse_process_char. cbn [state]. rewrite Hq.
        rewrite parse_add_char_fits by done.
        cbn [obind].
        by rewrite IH, append_assoc.
Qed.

(** One written field followed by the delimiter. *)
Lemma read_field_comma (fs : list string) (f t : string) :
  t <> EmptyString -> fits f ->
  read_text (mkReader START_FIELD fs EmptyString) (write_field f +:+ String COMMA t)
  = read_text (mkReader START_FIELD (fs ++ [f]) EmptyString) t.
Proof.
  intros Ht Hfit. unfold write_field. destruct (must_quote f) eqn:Hq.
  - rewrite append_cons, read_text_char; [|done|apply append_cons_ne].
    simpl. rewrite append_assoc, append_cons, append_nil_l.
    unfold set_state. simpl.
    rewrite read_quoted_body, append_nil_l by done.
    by rewrite read_text_char.
  - destruct f as [|c f].
    + rewrite append_nil_l. by rewrite read_text_char.
    + rewrite read_plain_start_field by done.
      by rewrite read_text_char.
Qed.

(** One written field followed by the line break: the record is complete. *)
Lemma read_field_LF (fs : list string) (f t : string) :
  fits f ->
  read_text (mkReader START_FIELD fs EmptyString) (write_field f +:+ String LF t)
  = omap (cons (fs ++ [f])) (read_text parse_reset t).
Proof.
  intros Hfit. unfold write_field. destruct (must_quote f) eqn:Hq.
  - rewrite append_cons, read_text_char; [|done|apply append_cons_ne].
    simpl. rewrite append_assoc, append_cons, append_nil_l.
    unfold set_state. simpl.
    rewrite read_quoted_body, append_nil_l by done.
    by rewrite read_text_LF.
  - destruct f as [|c f].
    + rewrite append_nil_l. by rewrite read_text_LF.
    + rewrite read_plain_start_field by done.
      by rewrite read_text_LF.
Qed.

(** The fields of a record, from the start of any of its fields. *)
Lemma read_fields (done_ : list string) (row : list string) (t : string) :
  row <> [] -> Forall fits row ->
  read_text (mkReader START_FIELD done_ EmptyString)
            (join_fields row +:+ String LF t)
  = omap (cons (done_ ++ row)) (read_text parse_reset t).
Proof.
  revert done_. induction row as [|f row IH]; intros done_ Hne Hfit; [done|].
  apply Forall_cons in Hfit as [Hf Hrow].
  destruct row as [|g row].
  - simpl join_fields. by apply read_field_LF.
  - change (join_fields (f :: g :: row))
      with (write_field f +:+ String COMMA (join_fields (g :: row))).
    rewrite append_assoc, append_cons.
    rewrite read_field_comma by (done || apply append_cons_ne).
    rewrite IH by done. by rewrite <- (assoc_L (++)).
Qed.

(** An unquoted field that is longer than the limit makes the reader
    raise. *)
Lemma read_plain_in_field_overflow (fs : list string) (fd s : string)
      (d : ascii) (t : string) :
  must_quote s = false -> fits fd -> ~ fits (fd +:+ s) ->
  read_text (mkReader IN_FIELD fs fd) (s +:+ String d t) = Raises CsvError.
Proof.
  revert fd. induction s as [|c s IH]; intros fd H Hfd Hover.
  - by rewrite append_nil_r in Hover.
  - apply must_quote_cons_false in H as [Hc Hs].
    pose proof Hc as Hc'.
    apply needs_quote_false in Hc' as (_ & _ & _ & Hlf).
    rewrite append_cons, read_text_char; [|done|apply append_cons_ne].
    rewrite parse_in_field by done.
    destruct (fits_dec (fd +:+ String c EmptyString)) as [Hfit|Hfull].
    + rewrite parse_add_char_fits by done. cbn [obind].
      apply IH; [done..|]. by rewrite append_assoc.
    + by rewrite parse_add_char_full.
Qed.

Lemma read_plain_start_field_overflow (fs : list string) (s : string)
      (d : ascii) (t : string) :
  must_quote s = false -> ~ fits s ->
  read_text (mkReader START_FIELD fs EmptyString) (s +:+ String d t)
  = Raises CsvError.
Proof.
  intros H Hover. destruct s as [|c s]; [by destruct Hover; apply fits_empty|].
  apply must_quote_cons_false in H as [Hc Hs].
  pose proof Hc as Hc'.
  apply needs_quote_false in Hc' as (_ & _ & _ & Hlf).
  rewrite append_cons, read_text_char; [|done|apply append_cons_ne].
  rewrite parse_start_field by done.
  destruct (fits_dec (String c EmptyString)) as [Hfit|Hfull].
  - rewrite parse_add_char_fits by by rewrite append_nil_l.
    unfold omap; cbn [obind]; unfold set_state; cbn [state fields field]. rewrite append_nil_l.
    by apply read_plain_in_field_overflow.
  - by rewrite parse_add_char_full by by rewrite append_nil_l.
Qed.

End Reader.


(** ** Records as written and as read back *)

Section Records.

Lemma write_field_first (f : string) (c : ascii) (w : string) :
  write_field f = String c w -> is_newline (Char c) = false.
Proof.
  unfold write_field. destruct (must_quote f) eqn:Hq.
  - by intros [= <- _].
  - intros ->. apply must_quote_cons_false in Hq as [Hc _].
    apply needs_quote_false in Hc as (_ & _ & Hcr & Hlf).
    simpl. by rewrite Hcr, Hlf.
Qed.

Lemma write_field_empty (f : string) : write_field f = EmptyString -> f = EmptyString.
Proof. unfold write_field. by destruct (must_quote f). Qed.

(** A complete record, from the start of a record. *)
Lemma read_record (row : list string) (t : string) :
  row <> [] -> Forall fits row ->
  read_text parse_reset (record_text row +:+ String LF t)
  = omap (cons row) (read_text parse_reset t).
Proof.
  intros Hne Hfit. destruct row as [|f [|g row]]; [done|..].
  - unfold record_text. simpl join_fields.
    destruct (write_field f) as [|c w] eqn:Hw.
    + apply write_field_empty in Hw as ->.
      rewrite !append_cons, append_nil_l.
      rewrite read_text_char; [|done..]. simpl.
      rewrite read_text_char; [|done..]. simpl.
      by rewrite read_text_LF.
    + rewrite append_cons.
      rewrite read_text_start_record by by eapply write_field_first.
      rewrite <- append_cons, <- Hw.
      by rewrite (read_fields [] [f]).
  - assert (record_text (f :: g :: row) = join_fields (f :: g :: row)) as ->.
    { unfold record_text.
      change (join_fields (f :: g :: row))
        with (write_field f +:+ String COMMA (join_fields (g :: row))).
      by destruct (write_field f). }
    assert (exists c s, join_fields (f :: g :: row) +:+ String LF t = String c s
                        /\ is_newline (Char c) = false) as (c & s & Hs & Hc).
    { change (join_fields (f :: g :: row))
        with (write_field f +:+ String COMMA (join_fields (g :: row))).
      destruct (write_field f) as [|c w] eqn:Hw.
      - rewrite append_nil_l, append_cons. eauto.
      - rewrite !append_cons. do 2 eexists. split; [done|].
        by eapply write_field_first. }
    rewrite Hs, read_text_start_record by done.
    rewrite <- Hs. by rewrite (read_fields [] (f :: g :: row)).
Qed.

Lemma translate_empty (s : string) :
  universal_newlines s = EmptyString -> s = EmptyString.
Proof.
  destruct s as [|c s]; [done|]. unfold universal_newlines. simpl.
  destruct (Ascii.eqb c CR); [done|]. by rewrite andb_false_r.
Qed.

Lemma record_text_translate (row : list string) :
  universal_newlines (record_text row) = record_text (map universal_newlines row).
Proof.
  unfold record_text. destruct row as [|f row]; [done|].
  pose proof (join_fields_translate (f :: row)) as Hj'.
  cbn -[join_fields universal_newlines] in *. rewrite <- Hj'.
  destruct (join_fields (f :: row)) as [|c s] eqn:Hj; [done|].
  destruct (universal_newlines (String c s)) eqn:Hu; [|done].
  by apply translate_empty in Hu.
Qed.

(** The text of a written line and of what follows it, as the text layer
    delivers it. *)
Lemma writerow_translate (row : list string) (t : string) :
  universal_newlines (writerow row +:+ t)
  = record_text (map universal_newlines row)
    +:+ String LF (universal_newlines t).
Proof.
  unfold writerow. rewrite append_assoc, !append_cons, append_nil_l.
  unfold universal_newlines at 1. rewrite translate_app_CRLF.
  fold (universal_newlines (record_text row)). fold (universal_newlines t).
  by rewrite record_text_translate.
Qed.

(** A written line at the head of a file reads back as its fields, with
    the line breaks inside them normalised by the text layer. *)
Lemma read_written (row : list string) (t : string) :
  row <> [] -> Forall fits row ->
  read_text parse_reset (universal_newlines (writerow row +:+ t))
  = omap (cons (map universal_newlines row))
         (read_text parse_reset (universal_newlines t)).
Proof.
  intros Hne Hfit. rewrite writerow_translate.
  apply read_record; [by destruct row|by apply Forall_fits_translate].
Qed.

(** A written line whose first field needs no quotes and is longer than
    the limit cannot be read back. *)
Lemma read_written_overflow (f : string) (row : list string) (t : string) :
  must_quote f = false -> ~ fits f ->
  read_text parse_reset (universal_newlines (writerow (f :: row) +:+ t))
  = Raises CsvError.
Proof.
  intros Hq Hover. rewrite writerow_translate. cbn [map].
  unfold universal_newlines at 1. rewrite translate_plain by done.
  assert (exists d u, record_text (f :: map universal_newlines row)
                      +:+ String LF (universal_newlines t)
                      = f +:+ String d u) as (d & u & ->).
  { unfold record_text, write_field.
    destruct (map universal_newlines row) as [|g row'].
    - cbn [join_fields]. unfold write_field. rewrite Hq.
      destruct f as [|c f]; [by destruct Hover; apply fits_empty|]. eauto.
    - change (join_fields (f :: g :: row'))
        with (write_field f +:+ String COMMA (join_fields (g :: row'))).
      unfold write_field at 1. rewrite Hq.
      destruct f as [|c f]; [by destruct Hover; apply fits_empty|].
      rewrite append_cons. cbv iota. rewrite <- append_cons, append_assoc.
      rewrite append_cons. eauto. }
  destruct f as [|c f]; [by destruct Hover; apply fits_empty|].
  pose proof Hq as Hq'. apply must_quote_cons_false in Hq' as [Hc _].
  apply needs_quote_false in Hc as (_ & _ & Hcr & Hlf).
  rewrite append_cons, read_text_start_record
    by (cbn [is_newline]; by rewrite Hcr, Hlf).
  rewrite <- append_cons. by apply read_plain_start_field_overflow.
Qed.

Lemma reader_list_read_text (s : string) :
  reader_list (iter_lines s) = read_text parse_reset s.
Proof. reflexivity. Qed.

(** Round trip of one record through [writerow], the text layer and the
    reader. *)
Corollary writerow_roundtrip (row : list string) :
  row <> [] -> Forall fits row ->
  reader_list (iter_lines (universal_newlines (writerow row)))
  = Returns [map universal_newlines row].
Proof.
  intros Hne Hfit. rewrite reader_list_read_text.
  rewrite <- (append_nil_r (writerow row)).
  by rewrite read_written.
Qed.

(** The data lines of a store at the head of a text. *)
Lemma read_data_lines_then (es : list entry) (t : string) :
  Forall entry_fits es ->
  read_text parse_reset (universal_newlines (data_lines es +:+ t))
  = omap (app (map (fun e => map universal_newlines (entry_row e)) es))
         (read_text parse_reset (universal_newlines t)).
Proof.
  induction 1 as [|e es He _ IH].
  - cbn [data_lines map]. rewrite append_nil_l.
    by destruct (read_text parse_reset (universal_newlines t)).
  - cbn [data_lines map]. rewrite append_assoc, read_written by done.
    rewrite IH. by destruct (read_text parse_reset (universal_newlines t)).
Qed.

Lemma read_data_lines (es : list entry) :
  Forall entry_fits es ->
  read_text parse_reset (universal_newlines (data_lines es))
  = Returns (map (fun e => map universal_newlines (entry_row e)) es).
Proof.
  intros Hfit. rewrite <- (append_nil_r (data_lines es)).
  rewrite read_data_lines_then by done.
  cbn [omap obind]. unfold read_text. cbn. by rewrite List.app_nil_r.
Qed.

Lemma universal_newlines_fieldnames :
  map universal_newlines REQUIRED_FIELDS = REQUIRED_FIELDS.
Proof. vm_compute. reflexivity. Qed.

Lemma fits_fieldnames : Forall fits REQUIRED_FIELDS.
Proof. repeat constructor; vm_compute; discriminate. Qed.

(** The records of a file that begins with the header line and the lines
    of a store. *)
Lemma read_file_text_then (es : list entry) (t : string) :
  Forall entry_fits es ->
  reader_list (iter_lines (universal_newlines (file_text es +:+ t)))
  = omap (fun rest =>
            REQUIRED_FIELDS
            :: map (fun e => map universal_newlines (entry_row e)) es ++ rest)
         (read_text parse_reset (universal_newlines t)).
Proof.
  intros Hfit. rewrite reader_list_read_text.
  unfold file_text, header_line.
  rewrite !append_assoc, read_written by (discriminate || apply fits_fieldnames).
  rewrite read_data_lines_then by done.
  rewrite universal_newlines_fieldnames.
  by destruct (read_text parse_reset (universal_newlines t)).
Qed.

(** The records of a file written by the store. *)
Lemma read_file_text (es : list entry) :
  Forall entry_fits es ->
  reader_list (iter_lines (universal_newlines (file_text es)))
  = Returns (REQUIRED_FIELDS :: map (fun e => map universal_newlines (entry_row e)) es).
Proof.
  intros Hfit. rewrite <- (append_nil_r (file_text es)).
  rewrite read_file_text_then by done.
  unfold read_text. cbn. by rewrite List.app_nil_r.
Qed.

Lemma filter_map_true {A B : Type} (p : B -> bool) (f : A -> B) (l : list A) :
  (forall x, p (f x) = true) -> List.filter p (map f l) = map f l.
Proof.
  intros Hp. induction l as [|x l IH]; [reflexivity|].
  cbn [map List.filter]. by rewrite Hp, IH.
Qed.

Lemma rows_file_text (es : list entry) :
  DictReader.rows
    (REQUIRED_FIELDS :: map (fun e => map universal_newlines (entry_row e)) es)
  = map listed es.
Proof.
  unfold DictReader.rows. rewrite filter_map_true by reflexivity.
  rewrite map_map. reflexivity.
Qed.

End Records.


(** ** Listed entries *)

Section Listed.

Lemma listed_eq (e : entry) :
  listed e
  = <[Some "Registration_Date" := VStr (universal_newlines (e_date e))]>
      (<[Some "Date_of_Birth" := VStr (universal_newlines (e_dob e))]>
         (<[Some "Email" := VStr (universal_newlines (e_email e))]>
            (<[Some "Name" := VStr (universal_newlines (e_name e))]> ∅))).
Proof. reflexivity. Qed.

(** Looking a field name up in a listed entry. *)
Ltac lookup_listed :=
  rewrite listed_eq;
  rewrite ?lookup_insert_ne by discriminate;
  apply lookup_insert_eq.

Lemma listed_name (e : entry) :
  listed e !! Some "Name" = Some (VStr (universal_newlines (e_name e))).
Proof. lookup_listed. Qed.

Lemma listed_email (e : entry) :
  listed e !! Some "Email" = Some (VStr (universal_newlines (e_email e))).
Proof. lookup_listed. Qed.

Lemma listed_dob (e : entry) :
  listed e !! Some "Date_of_Birth" = Some (VStr (universal_newlines (e_dob e))).
Proof. lookup_listed. Qed.

Lemma listed_date (e : entry) :
  listed e !! Some "Registration_Date"
  = Some (VStr (universal_newlines (e_date e))).
Proof. lookup_listed. Qed.

End Listed.


(** ** The manager on the files it writes *)

Section OnStore.

Lemma get_all_registrations_absent :
  get_all_registrations None
  = (Returns {| l_success := true; l_count := Some 0; l_data := [] |}, None).
Proof. reflexivity. Qed.

(** Listing a store yields its entries, in the order of the file, and does
    not touch the file. *)
Lemma get_all_registrations_store (es : list entry) :
  Forall entry_fits es ->
  get_all_registrations (store_of es)
  = (Returns {| l_success := true; l_count := None; l_data := map listed es |},
     store_of es).
Proof.
  intros Hfit.
  cbv [get_all_registrations mbind path_exists open_r_lines lift mret store_of negb].
  rewrite read_file_text, rows_file_text by done. reflexivity.
Qed.

Lemma any_email_listed (email : string) (es : list entry) :
  any_email email (map listed es) = Returns (existsb (same_email email) es).
Proof.
  induction es as [|e es IH]; [reflexivity|].
  cbn [map any_email existsb]. unfold getitem. rewrite listed_email.
  cbn [obind value_lower]. fold (same_email email e).
  destruct (same_email email e); [reflexivity|]. by rewrite IH.
Qed.

Lemma email_exists_store (email : string) (es : list entry) :
  Forall entry_fits es ->
  email_exists email (store_of es)
  = (Returns (existsb (same_email email) es), store_of es).
Proof.
  intros Hfit. unfold email_exists, mbind.
  rewrite get_all_registrations_store by done.
  cbn [l_data]. unfold lift. by rewrite any_email_listed.
Qed.

Lemma search_test_listed (query : string) (e : entry) :
  search_test query (listed e) = Returns (matches query e).
Proof.
  unfold search_test, getitem, matches. rewrite listed_name, listed_email.
  cbn [obind value_lower].
  by destruct (contains query (lower (universal_newlines (e_name e)))).
Qed.

Lemma search_filter_listed (query : string) (es : list entry) :
  search_filter query (map listed es)
  = Returns (map listed (List.filter (matches query) es)).
Proof.
  induction es as [|e es IH]; [reflexivity|].
  cbn [map search_filter List.filter]. rewrite search_test_listed, IH.
  cbn [obind]. by destruct (matches query e).
Qed.

Lemma search_registrations_store (query : string) (es : list entry) :
  Forall entry_fits es ->
  search_registrations query (store_of es)
  = let found := List.filter (matches (strip (lower query))) es in
    (Returns {| l_success := true; l_count := Some (length found);
                l_data := map listed found |},
     store_of es).
Proof.
  intros Hfit. unfold search_registrations, mbind.
  rewrite get_all_registrations_store by done.
  cbn [l_data]. unfold lift. rewrite search_filter_listed.
  cbn zeta. unfold mret. by rewrite length_map.
Qed.

Lemma data_lines_snoc (es : list entry) (e : entry) :
  data_lines (es ++ [e]) = data_lines es +:+ writerow (entry_row e).
Proof.
  induction es as [|e' es IH].
  - cbn [app data_lines]. by rewrite append_nil_r, append_nil_l.
  - cbn [app data_lines]. by rewrite IH, append_assoc.
Qed.

(** Appending a line to the file of a store gives the file of the store
    with one more entry. *)
Lemma file_text_snoc (es : list entry) (e : entry) :
  file_text (es ++ [e]) = file_text es +:+ writerow (entry_row e).
Proof. unfold file_text. by rewrite data_lines_snoc, append_assoc. Qed.

Context `{V : RegistrationValidator}.

(** The three outcomes of [add_registration], by the tests it makes. *)
Lemma add_registration_invalid (name email dob : string) (now : datetime)
      (fs : fstate) :
  all_valid name email dob = false ->
  add_registration name email dob now fs
  = (Returns (ValidationFailed (messages name email dob)), fs).
Proof.
  unfold all_valid, messages, add_registration.
  destruct (validate_name name) as [nv nm], (validate_email email) as [ev em],
    (validate_date_of_birth dob) as [dv dm].
  cbn [fst snd]. by intros ->.
Qed.

Lemma add_registration_valid (name email dob : string) (now : datetime)
      (fs : fstate) :
  all_valid name email dob = true ->
  add_registration name email dob now fs
  = (email_exists email >>= fun dup =>
     if dup then mret DuplicateEmail
     else
       open_a_write (writerow [strip name; strip email; dob; strftime now])
       >>= fun _ =>
       mret (Success ("Registered " +:+ name)
               (<[Some "Registration_Date" := VStr (strftime now)]>
                  (<[Some "Date_of_Birth" := VStr dob]>
                     (<[Some "Email" := VStr email]>
                        (<[Some "Name" := VStr name]> ∅)))))) fs.
Proof.
  unfold all_valid, add_registration.
  destruct (validate_name name) as [nv nm], (validate_email email) as [ev em],
    (validate_date_of_birth dob) as [dv dm].
  cbn [fst snd]. by intros ->.
Qed.

Lemma add_registration_duplicate (name email dob : string) (now : datetime)
      (es : list entry) :
  Forall entry_fits es ->
  all_valid name email dob = true ->
  existsb (same_email email) es = true ->
  add_registration name email dob now (store_of es)
  = (Returns DuplicateEmail, store_of es).
Proof.
  intros Hfit Hv Hd. rewrite add_registration_valid by done.
  unfold mbind. by rewrite email_exists_store, Hd.
Qed.

Lemma add_registration_success (name email dob : string) (now : datetime)
      (es : list entry) :
  Forall entry_fits es ->
  all_valid name email dob = true ->
  existsb (same_email email) es = false ->
  add_registration name email dob now (store_of es)
  = (Returns (Success ("Registered " +:+ name)
               (<[Some "Registration_Date" := VStr (strftime now)]>
                  (<[Some "Date_of_Birth" := VStr dob]>
                     (<[Some "Email" := VStr email]>
                        (<[Some "Name" := VStr name]> ∅))))),
     store_of (es ++ [new_entry name email dob now])).
Proof.
  intros Hfit Hv Hd. rewrite add_registration_valid by done.
  unfold mbind at 1. rewrite email_exists_store, Hd by done.
  unfold mbind, open_a_write, mret, store_of.
  cbn [from_option id]. by rewrite file_text_snoc.
Qed.

End OnStore.


(** ** The timestamp *)

Section Timestamp.

Lemma must_quote_app (s t : string) :
  must_quote (s +:+ t) = must_quote s || must_quote t.
Proof.
  induction s as [|c s IH]; [reflexivity|].
  rewrite append_cons. simpl. by rewrite IH, orb_assoc.
Qed.

Lemma needs_quote_digit (n : nat) : needs_quote (digit n) = false.
Proof.
  unfold digit.
  assert (n mod 10 < 10) as Hlt by (apply Nat.mod_upper_bound; lia).
  generalize dependent (n mod 10). intros k Hlt.
  do 10 (destruct k as [|k]; [reflexivity|]).
  lia.
Qed.

Lemma must_quote_pad2 (n : nat) : must_quote (pad2 n) = false.
Proof. unfold pad2. cbn [must_quote]. by rewrite !needs_quote_digit. Qed.

Lemma must_quote_pad4 (n : nat) : must_quote (pad4 n) = false.
Proof.
  unfold pad4. cbn [must_quote]. by rewrite !needs_quote_digit, must_quote_pad2.
Qed.

Lemma must_quote_decimal (fuel n : nat) (acc : string) :
  must_quote acc = false -> must_quote (decimal fuel n acc) = false.
Proof.
  revert n acc. induction fuel as [|fuel IH]; intros n acc Hacc; [done|].
  cbn [decimal].
  assert (must_quote (String (digit n) acc) = false) as Hd
    by (cbn [must_quote]; by rewrite needs_quote_digit).
  destruct (n <? 10); [done|by apply IH].
Qed.

Lemma must_quote_year_text (y : nat) : must_quote (year_text y) = false.
Proof.
  unfold year_text. destruct (y <? 1000);
    [by apply must_quote_decimal|apply must_quote_pad4].
Qed.

Lemma length_decimal (fuel n : nat) (acc : string) :
  String.length (decimal fuel n acc) <= fuel + String.length acc.
Proof.
  revert n acc. induction fuel as [|fuel IH]; intros n acc; [done|].
  cbn [decimal]. destruct (n <? 10).
  - cbn [String.length]. lia.
  - etrans; [apply IH|]. cbn [String.length]. lia.
Qed.

(** The timestamp holds digits, hyphens, a space and colons: it is written
    without quotes and read back unchanged. *)
Lemma must_quote_strftime (d : datetime) : must_quote (strftime d) = false.
Proof.
  unfold strftime.
  rewrite !must_quote_app, must_quote_year_text, !must_quote_pad2. reflexivity.
Qed.

Lemma universal_newlines_strftime (d : datetime) :
  universal_newlines (strftime d) = strftime d.
Proof. apply translate_plain, must_quote_strftime. Qed.

Lemma length_pad2 (n : nat) : String.length (pad2 n) = 2.
Proof. reflexivity. Qed.

Lemma length_pad4 (n : nat) : String.length (pad4 n) = 4.
Proof. reflexivity. Qed.

Lemma length_year_text (y : nat) : String.length (year_text y) <= 4.
Proof.
  unfold year_text. destruct (y <? 1000).
  - etrans; [apply length_decimal|]. cbn [String.length]. lia.
  - by rewrite length_pad4.
Qed.

Lemma length_strftime (d : datetime) : String.length (strftime d) <= 19.
Proof.
  unfold strftime. rewrite !length_append, !length_pad2.
  pose proof (length_year_text (year d)). cbn [String.length]. lia.
Qed.

(** The timestamp is far below the field size limit. *)
Lemma fits_strftime (d : datetime) : fits (strftime d).
Proof.
  unfold fits. pose proof (length_strftime d). unfold field_size_limit. lia.
Qed.

End Timestamp.


(** ** The manager on any file *)

Section OnAnyFile.

(** Listing, searching and the duplicate check only read. *)
Lemma get_all_registrations_state (fs : fstate) :
  snd (get_all_registrations fs) = fs.
Proof.
  destruct fs as [text|]; [|reflexivity].
  cbv [get_all_registrations mbind path_exists open_r_lines lift mret negb].
  by destruct (reader_list (iter_lines (universal_newlines text))).
Qed.

Lemma mbind_read_only {A B : Type} (m : M A) (k : A -> outcome B) (fs : fstate) :
  snd (m fs) = fs -> snd ((m >>= fun a => lift (k a)) fs) = fs.
Proof.
  unfold mbind, lift. destruct (m fs) as [[a|e] fs']; simpl; done.
Qed.

Lemma email_exists_state (email : string) (fs : fstate) :
  snd (email_exists email fs) = fs.
Proof.
  unfold email_exists. apply mbind_read_only, get_all_registrations_state.
Qed.

Lemma search_registrations_state (query : string) (fs : fstate) :
  snd (search_registrations query fs) = fs.
Proof.
  unfold search_registrations, mbind, lift, mret.
  pose proof (get_all_registrations_state fs) as Hs.
  destruct (get_all_registrations fs) as [[l|e] fs']; simpl in *; [|done].
  by destruct (search_filter _ (l_data l)).
Qed.

Lemma str_field_getitem (r : pydict) (key s : string) :
  str_field r key = Some s ->
  obind (getitem r key) value_lower = Returns (lower s).
Proof.
  unfold str_field, getitem.
  destruct (r !! Some key) as [[| |]|]; naive_solver.
Qed.

(** On records that all carry an email, [any] answers whether one of them
    has the given email, letter case aside. *)
Lemma any_email_records (email : string) (data : list pydict) :
  Forall (fun r => is_Some (str_field r "Email")) data ->
  any_email email data = Returns (existsb (record_same_email email) data).
Proof.
  induction 1 as [|r data [e He] _ IH]; [reflexivity|].
  cbn [any_email existsb]. rewrite (str_field_getitem _ _ _ He).
  unfold record_same_email. rewrite He. cbn [obind].
  by destruct (String.eqb (lower e) (lower email)).
Qed.



Lemma str_field_listed_name (e : entry) :
  str_field (listed e) "Name" = Some (universal_newlines (e_name e)).
Proof. unfold str_field. by rewrite listed_name. Qed.

Lemma str_field_listed_email (e : entry) :
  str_field (listed e) "Email" = Some (universal_newlines (e_email e)).
Proof. unfold str_field. by rewrite listed_email. Qed.

Lemma well_keyed_listed (e : entry) : well_keyed (listed e).
Proof.
  split; [rewrite str_field_listed_name | rewrite str_field_listed_email]; eauto.
Qed.


Lemma record_matches_listed (query : string) (e : entry) :
  record_matches query (listed e) = matches query e.
Proof.
  unfold record_matches.
  by rewrite str_field_listed_name, str_field_listed_email.
Qed.


Context `{V : RegistrationValidator}.

(** [add_registration] leaves the file as it is or puts one line at its
    end. *)
Lemma add_registration_state (name email dob : string) (now : datetime)
      (fs : fstate) :
  snd (add_registration name email dob now fs) = fs
  \/ snd (add_registration name email dob now fs)
     = Some (default EmptyString fs
             +:+ writerow [strip name; strip email; dob; strftime now]).
Proof.
  destruct (all_valid name email dob) eqn:Hv.
  - rewrite add_registration_valid by done.
    cbv [mbind open_a_write mret].
    pose proof (email_exists_state email fs) as Hs.
    destruct (email_exists email fs) as [[[|]|e] fs']; cbn [snd] in *; subst fs'.
    + by left.
    + by right.
    + by left.
  - left. by rewrite add_registration_invalid.
Qed.

(** No call shortens or rewrites the file: what was there stays at the
    front. *)
Lemma run_op_extends (fs : fstate) (o : op) :
  run_op fs o = fs
  \/ exists t, run_op fs o = Some (default EmptyString fs +:+ t).
Proof.
  destruct o as [name email dob now| |query]; cbn [run_op].
  - destruct (add_registration_state name email dob now fs) as [->| ->]; eauto.
  - left. apply get_all_registrations_state.
  - left. apply search_registrations_state.
Qed.

Lemma run_ops_extends (ops : list op) (text : string) :
  exists t, run_ops ops (Some text) = Some (text +:+ t).
Proof.
  revert text. induction ops as [|o ops IH]; intros text.
  - exists EmptyString. by rewrite append_nil_r.
  - change (run_ops (o :: ops) (Some text))
      with (run_ops ops (run_op (Some text) o)).
    destruct (run_op_extends (Some text) o) as [->|[t ->]].
    + apply IH.
    + cbn [from_option id]. destruct (IH (text +:+ t)) as [t' Ht'].
      exists (t +:+ t'). by rewrite Ht', append_assoc.
Qed.

(** The states a store goes through, from its construction where no file
    was, are files of the shape it writes. *)
Lemma init_absent : snd (init None) = store_of [].
Proof. vm_compute. reflexivity. Qed.


Lemma run_op_store (es : list entry) (o : op) :
  run_op (store_of es) o = store_of es
  \/ exists name email dob now,
       o = OpAdd name email dob now
       /\ run_op (store_of es) o
          = store_of (es ++ [new_entry name email dob now]).
Proof.
  destruct o as [name email dob now| |query]; cbn [run_op].
  - destruct (add_registration_state name email dob now (store_of es))
      as [-> | ->]; [by left|].
    right. exists name, email, dob, now. split; [done|].
    unfold store_of. cbn [from_option id]. by rewrite file_text_snoc.
  - left. apply get_all_registrations_state.
  - left. apply search_registrations_state.
Qed.

End OnAnyFile.


(** ** Validation and the duplicate check *)

Section Rejections.

Context `{V : RegistrationValidator}.

Lemma some_validator_fails (name email dob : string) :
  fst (validate_name name) = false \/ fst (validate_email email) = false
  \/ fst (validate_date_of_birth dob) = false ->
  all_valid name email dob = false.
Proof.
  unfold all_valid. intros [->|[->| ->]];
    rewrite ?andb_false_r; reflexivity.
Qed.

(** C1. When at least one of the three validators rejects its argument,
    [add_registration] returns the validation failure with the messages of
    all three validators, so with the reason of every failing one, and the
    file is left as it was. *)
Theorem add_reports_every_failure (name email dob : string) (now : datetime)
    (fs : fstate) :
  fst (validate_name name) = false \/ fst (validate_email email) = false
  \/ fst (validate_date_of_birth dob) = false ->
  add_registration name email dob now fs
  = (Returns (ValidationFailed (messages name email dob)), fs)
  /\ (fst (validate_name name) = false ->
      snd (validate_name name) ∈ messages name email dob)
  /\ (fst (validate_email email) = false ->
      snd (validate_email email) ∈ messages name email dob)
  /\ (fst (validate_date_of_birth dob) = false ->
      snd (validate_date_of_birth dob) ∈ messages name email dob).
Proof.
  intros Hf. split.
  - by apply add_registration_invalid, some_validator_fails.
  - unfold messages. repeat split; intros _; repeat constructor.
Qed.

(** C5. When the input fails validation and its email is also the email of
    an existing record, [add_registration] answers with the validation
    failure and not with the duplicate-email result. *)
Theorem validation_precedes_duplicate_check (name email dob : string)
    (now : datetime) (fs : fstate) :
  fst (validate_name name) = false \/ fst (validate_email email) = false
  \/ fst (validate_date_of_birth dob) = false ->
  email_exists email fs = (Returns true, fs) ->
  add_registration name email dob now fs
  = (Returns (ValidationFailed (messages name email dob)), fs)
  /\ fst (add_registration name email dob now fs) <> Returns DuplicateEmail.
Proof.
  intros Hf _.
  rewrite add_registration_invalid by by apply some_validator_fails.
  done.
Qed.


End Rejections.

(** ** Listing *)

Section Listing.

(** C7. Listing an empty store succeeds with no records: when the file is
    absent, when the store was just constructed, and when the file is
    empty. *)
Theorem list_of_empty_store :
  get_all_registrations None
  = (Returns {| l_success := true; l_count := Some 0; l_data := [] |}, None)
  /\ get_all_registrations (snd (init None))
     = (Returns {| l_success := true; l_count := None; l_data := [] |},
        snd (init None))
  /\ get_all_registrations (Some EmptyString)
     = (Returns {| l_success := true; l_count := None; l_data := [] |},
        Some EmptyString).
Proof. repeat split; vm_compute; reflexivity. Qed.

(** C9. Listing reads only: two listings in a row give the same answer,
    and the file is what it was before them. *)
Theorem list_twice (fs : fstate) :
  snd (get_all_registrations fs) = fs
  /\ fst (get_all_registrations (snd (get_all_registrations fs)))
     = fst (get_all_registrations fs)
  /\ snd (get_all_registrations (snd (get_all_registrations fs))) = fs.
Proof. by rewrite !get_all_registrations_state. Qed.

End Listing.


(** ** Successful registrations *)

Section Appending.

Lemma str_field_listed_dob (e : entry) :
  str_field (listed e) "Date_of_Birth" = Some (universal_newlines (e_dob e)).
Proof. unfold str_field. by rewrite listed_dob. Qed.

Lemma str_field_listed_date (e : entry) :
  str_field (listed e) "Registration_Date" = Some (universal_newlines (e_date e)).
Proof. unfold str_field. by rewrite listed_date. Qed.

Lemma no_same_email (email : string) (es : list entry) :
  (forall r e, r ∈ map listed es -> str_field r "Email" = Some e ->
               lower e <> lower email) ->
  existsb (same_email email) es = false.
Proof.
  intros Hno. apply not_true_is_false. intros Hex.
  apply existsb_exists in Hex as (e0 & Hin & Hsame).
  unfold same_email in Hsame. apply String.eqb_eq in Hsame.
  apply (Hno (listed e0) (universal_newlines (e_email e0))); [|by apply str_field_listed_email|done].
  apply list_elem_of_In, in_map, Hin.
Qed.

(** The entry of a call whose fields are within the limit is within the
    limit. *)
Lemma entry_fits_new_entry (name email dob : string) (now : datetime) :
  fits (strip name) -> fits (strip email) -> fits dob ->
  entry_fits (new_entry name email dob now).
Proof.
  intros Hn He Hd. unfold entry_fits, entry_row, new_entry.
  cbn [e_name e_email e_dob e_date].
  repeat constructor; try done. apply fits_strftime.
Qed.

Lemma Forall_snoc_fits (es : list entry) (e : entry) :
  Forall entry_fits es -> entry_fits e -> Forall entry_fits (es ++ [e]).
Proof.
  intros Hes He. apply Forall_app. split; [done|].
  constructor; [done|constructor].
Qed.

Context `{V : RegistrationValidator}.

(** A call that returns success passed validation and found no record
    with its email. *)
Lemma add_registration_success_inv (name email dob : string) (now : datetime)
      (es : list entry) (msg : string) (data : pydict) (fs' : fstate) :
  Forall entry_fits es ->
  add_registration name email dob now (store_of es)
  = (Returns (Success msg data), fs') ->
  all_valid name email dob = true /\ existsb (same_email email) es = false.
Proof.
  intros Hfit H. destruct (all_valid name email dob) eqn:Hv.
  - destruct (existsb (same_email email) es) eqn:Hd; [|done].
    by rewrite add_registration_duplicate in H.
  - by rewrite add_registration_invalid in H.
Qed.

(** C4, amended. On a store whose fields are within the field size limit
    of the csv reader, for a valid triple whose email no record of the
    store has, letter case aside, and whose trimmed name, trimmed email
    and date of birth are within that limit, [add_registration] succeeds;
    the file gains one line at its end, and the listing afterwards is the
    listing before followed by one new record, which has its four fields:
    the trimmed name, the trimmed email and the date of birth, as the text
    layer reads them back, and the timestamp of the call. *)
Theorem add_appends_one_record (es : list entry) (before : listing)
    (name email dob : string) (now : datetime) :
  Forall entry_fits es ->
  fits (strip name) -> fits (strip email) -> fits dob ->
  all_valid name email dob = true ->
  get_all_registrations (store_of es) = (Returns before, store_of es) ->
  (forall r e, r ∈ l_data before -> str_field r "Email" = Some e ->
               lower e <> lower email) ->
  exists msg data fs' r,
    add_registration name email dob now (store_of es)
    = (Returns (Success msg data), fs')
    /\ fs' = Some (file_text es
                   +:+ writerow [strip name; strip email; dob; strftime now])
    /\ get_all_registrations fs'
       = (Returns {| l_success := true; l_count := None;
                     l_data := l_data before ++ [r] |}, fs')
    /\ str_field r "Name" = Some (universal_newlines (strip name))
    /\ str_field r "Email" = Some (universal_newlines (strip email))
    /\ str_field r "Date_of_Birth" = Some (universal_newlines dob)
    /\ str_field r "Registration_Date" = Some (strftime now).
Proof.
  intros Hfit Hfn Hfe Hfd Hv Hb Hno.
  rewrite get_all_registrations_store in Hb by done. injection Hb as <-.
  cbn [l_data] in *. apply no_same_email in Hno.
  do 3 eexists. exists (listed (new_entry name email dob now)).
  split; [by apply add_registration_success|].
  split; [unfold store_of; by rewrite file_text_snoc|].
  split.
  { rewrite get_all_registrations_store
      by by apply Forall_snoc_fits, entry_fits_new_entry.
    by rewrite map_app. }
  rewrite str_field_listed_name, str_field_listed_email,
    str_field_listed_dob, str_field_listed_date.
  cbn [new_entry e_name e_email e_dob e_date].
  by rewrite universal_newlines_strftime.
Qed.

(** C3, amended. After a successful [add_registration] on a file written
    by the store, when the fields of the store and the trimmed name, the
    trimmed email and the date of birth of the call are within the field
    size limit of the csv reader, the file has gained the line of the
    trimmed name, the trimmed email, the date of birth and the timestamp of
    the call, and the last record of the listing holds these four, each as
    the text layer reads it back; the result carries that timestamp.  When
    name and email have no surrounding whitespace and the three hold no
    carriage return, the listing reproduces them as supplied and the
    record echoed by the result is the stored one. *)
Theorem add_then_list (es : list entry) (name email dob : string)
    (now : datetime) (msg : string) (data : pydict) (fs' : fstate) :
  Forall entry_fits es ->
  fits (strip name) -> fits (strip email) -> fits dob ->
  add_registration name email dob now (store_of es)
  = (Returns (Success msg data), fs') ->
  exists l r,
    fs' = Some (file_text es
                +:+ writerow [strip name; strip email; dob; strftime now])
    /\ get_all_registrations fs' = (Returns l, fs')
    /\ last (l_data l) = Some r
    /\ str_field r "Name" = Some (universal_newlines (strip name))
    /\ str_field r "Email" = Some (universal_newlines (strip email))
    /\ str_field r "Date_of_Birth" = Some (universal_newlines dob)
    /\ str_field r "Registration_Date" = Some (strftime now)
    /\ str_field data "Registration_Date" = Some (strftime now)
    /\ (strip name = name -> strip email = email ->
        universal_newlines name = name -> universal_newlines email = email ->
        universal_newlines dob = dob ->
        str_field r "Name" = Some name /\ str_field r "Email" = Some email
        /\ str_field r "Date_of_Birth" = Some dob /\ data = r).
Proof.
  intros Hfit Hfn Hfe Hfd H.
  destruct (add_registration_success_inv _ _ _ _ _ _ _ _ Hfit H) as [Hv Hd].
  rewrite add_registration_success in H by done.
  injection H as <- <- <-.
  exists {| l_success := true; l_count := None;
            l_data := map listed (es ++ [new_entry name email dob now]) |},
         (listed (new_entry name email dob now)).
  split; [unfold store_of; by rewrite file_text_snoc|].
  split; [by apply get_all_registrations_store, Forall_snoc_fits,
            entry_fits_new_entry|].
  split; [cbn [l_data]; rewrite map_app; cbn [map]; by rewrite last_snoc|].
  rewrite str_field_listed_name, str_field_listed_email,
    str_field_listed_dob, str_field_listed_date.
  cbn [new_entry e_name e_email e_dob e_date].
  rewrite universal_newlines_strftime.
  do 4 (split; [reflexivity|]).
  split; [unfold str_field; by rewrite lookup_insert_eq|].
  intros Hn He Hun Hue Hud. rewrite listed_eq.
  cbn [new_entry e_name e_email e_dob e_date].
  by rewrite universal_newlines_strftime, Hn, He, Hun, Hue, Hud.
Qed.

End Appending.


(** ** Trimming and letter case *)

Section Trimming.












Lemma ends_nonspace_cons (c : ascii) (s : string) :
  s <> EmptyString -> ends_nonspace (String c s) = ends_nonspace s.
Proof. by destruct s. Qed.

Lemma ends_nonspace_nonempty (s : string) :
  ends_nonspace s = true -> s <> EmptyString.
Proof. by destruct s. Qed.

Lemma rstrip_ends (s : string) :
  rstrip s = EmptyString \/ ends_nonspace (rstrip s) = true.
Proof.
  induction s as [|c s IH]; [by left|]. simpl.
  destruct (rstrip s) as [|d r] eqn:Hr.
  - destruct (isspace c) eqn:Hc; [by left|]. right. simpl. by rewrite Hc.
  - right. destruct IH as [|IH]; [done|].
    by rewrite ends_nonspace_cons.
Qed.

Lemma rstrip_starts (s : string) :
  rstrip s = EmptyString \/ starts_nonspace (rstrip s) = starts_nonspace s.
Proof.
  destruct s as [|c s]; [by left|]. simpl.
  destruct (rstrip s); [destruct (isspace c) eqn:Hc|].
  - by left.
  - right. simpl. by rewrite Hc.
  - by right.
Qed.

Lemma lstrip_starts (s : string) :
  lstrip s = EmptyString \/ starts_nonspace (lstrip s) = true.
Proof.
  induction s as [|c s IH]; [by left|]. simpl.
  destruct (isspace c) eqn:Hc; [done|]. right. simpl. by rewrite Hc.
Qed.

(** What is left after trimming is empty or has a first and a last
    character that are no whitespace. *)
Lemma strip_shape (s : string) :
  strip s = EmptyString
  \/ (starts_nonspace (strip s) = true /\ ends_nonspace (strip s) = true).
Proof.
  unfold strip.
  destruct (rstrip_ends (lstrip s)) as [|He]; [by left|]. right.
  split; [|done].
  destruct (rstrip_starts (lstrip s)) as [Hr | ->].
  - rewrite Hr in He. done.
  - destruct (lstrip_starts s) as [Hl|]; [|done].
    rewrite Hl in He. done.
Qed.

Lemma lstrip_fixed (s : string) : starts_nonspace s = true -> lstrip s = s.
Proof. destruct s as [|c s]; [done|]. simpl. by destruct (isspace c). Qed.

Lemma rstrip_fixed (s : string) : ends_nonspace s = true -> rstrip s = s.
Proof.
  induction s as [|c s IH]; [done|].
  destruct s as [|d s].
  - simpl. by destruct (isspace c).
  - intros He. rewrite ends_nonspace_cons in He by done.
    change (rstrip (String c (String d s)))
      with (match rstrip (String d s) with
            | EmptyString => if isspace c then EmptyString else String c EmptyString
            | r => String c r
            end).
    by rewrite IH.
Qed.

Lemma strip_fixed (s : string) :
  s = EmptyString \/ (starts_nonspace s = true /\ ends_nonspace s = true) ->
  strip s = s.
Proof.
  intros [->|[Hs He]]; [done|].
  unfold strip. rewrite lstrip_fixed by done. by apply rstrip_fixed.
Qed.

Lemma isspace_CR_LF (c : ascii) :
  isspace c = false -> Ascii.eqb c CR = false /\ Ascii.eqb c LF = false.
Proof.
  intros Hc. split; apply Ascii.eqb_neq; intros ->; done.
Qed.

Lemma translate_cons (b : bool) (c : ascii) (s : string) :
  translate b (String c s)
  = if Ascii.eqb c CR then String LF (translate true s)
    else if Ascii.eqb c LF && b then translate false s
    else String c (translate false s).
Proof. reflexivity. Qed.

Lemma translate_nonempty (b : bool) (s : string) :
  ends_nonspace s = true -> translate b s <> EmptyString.
Proof.
  revert b. induction s as [|c s IH]; intros b He; [done|].
  destruct s as [|d s].
  - simpl in He. apply negb_true_iff, isspace_CR_LF in He as [Hcr Hlf].
    simpl. by rewrite Hcr, Hlf.
  - rewrite ends_nonspace_cons in He by done.
    rewrite translate_cons. destruct (Ascii.eqb c CR); [done|].
    destruct (Ascii.eqb c LF && b); [by apply IH|done].
Qed.

Lemma translate_ends (b : bool) (s : string) :
  ends_nonspace s = true -> ends_nonspace (translate b s) = true.
Proof.
  revert b. induction s as [|c s IH]; intros b He; [done|].
  destruct s as [|d s].
  - pose proof He as He'. simpl in He'.
    apply negb_true_iff, isspace_CR_LF in He' as [Hcr Hlf].
    simpl. by rewrite Hcr, Hlf.
  - rewrite ends_nonspace_cons in He by done.
    rewrite translate_cons. destruct (Ascii.eqb c CR).
    + rewrite ends_nonspace_cons by by apply translate_nonempty. by apply IH.
    + destruct (Ascii.eqb c LF && b); [by apply IH|].
      rewrite ends_nonspace_cons by by apply translate_nonempty. by apply IH.
Qed.

Lemma translate_starts (s : string) :
  starts_nonspace s = true -> starts_nonspace (universal_newlines s) = true.
Proof.
  destruct s as [|c s]; [done|]. simpl. intros Hc.
  pose proof Hc as Hc'. apply negb_true_iff, isspace_CR_LF in Hc' as [Hcr Hlf].
  unfold universal_newlines. simpl. by rewrite Hcr, Hlf.
Qed.

(** A trimmed string is still trimmed when the text layer has read it. *)
Lemma strip_universal_newlines (s : string) :
  strip (universal_newlines (strip s)) = universal_newlines (strip s).
Proof.
  apply strip_fixed. destruct (strip_shape s) as [->|[Hs He]]; [by left|].
  right. split; [by apply translate_starts|by apply translate_ends].
Qed.

End Trimming.

(** ** The stores that can be reached *)

Section Reachable.

Context `{V : RegistrationValidator}.

Lemma email_trimmed_new_entry (name email dob : string) (now : datetime) :
  email_trimmed (new_entry name email dob now).
Proof. apply strip_universal_newlines. Qed.

(** Every state that a store constructed where no file was goes through
    is the file of some list of entries, whose listed emails are
    trimmed. *)
Lemma run_ops_store (ops : list op) (es : list entry) :
  Forall email_trimmed es ->
  exists es', run_ops ops (store_of es) = store_of es'
              /\ Forall email_trimmed es'.
Proof.
  revert es. induction ops as [|o ops IH]; intros es Hes; [by exists es|].
  change (run_ops (o :: ops) (store_of es))
    with (run_ops ops (run_op (store_of es) o)).
  destruct (run_op_store es o) as [->|(name & email & dob & now & _ & ->)].
  - by apply IH.
  - apply IH, Forall_app. split; [done|].
    constructor; [apply email_trimmed_new_entry|constructor].
Qed.

Lemma reachable_store (ops : list op) :
  exists es, run_ops ops (snd (init None)) = store_of es
             /\ Forall email_trimmed es.
Proof. rewrite init_absent. by apply run_ops_store. Qed.

End Reachable.

(** ** Searching *)

Section Searching.


End Searching.

(** ** The header line *)

Section Header.

Context `{V : RegistrationValidator}.

Lemma header_line_text :
  header_line
  = "Name,Email,Date_of_Birth,Registration_Date" +:+ String CR (String LF EmptyString).
Proof. vm_compute. reflexivity. Qed.

(** C8, amended. When no file exists, construction creates it with the
    header line alone; an existing file is left as it is; constructing
    again changes nothing.  When the file was absent or began with the
    header line, then after construction and any sequence of calls the
    file still begins with the header line, and whatever the calls wrote
    stands behind what construction left. *)
Theorem header_stays_first (fs0 : fstate) (ops : list op) :
  fs0 = None \/ (exists rest, fs0 = Some (header_line +:+ rest)) ->
  (fs0 = None -> snd (init fs0) = Some header_line)
  /\ (forall text, fs0 = Some text -> snd (init fs0) = Some text)
  /\ snd (init (snd (init fs0))) = snd (init fs0)
  /\ exists rest written,
       snd (init fs0) = Some (header_line +:+ rest)
       /\ run_ops ops (snd (init fs0))
          = Some ((header_line +:+ rest) +:+ written).
Proof.
  intros H0.
  split; [by intros ->|].
  split; [by intros text ->|].
  split; [by destruct fs0|].
  destruct H0 as [->|[rest ->]].
  - exists EmptyString.
    destruct (run_ops_extends ops header_line) as [t Ht].
    exists t. rewrite append_nil_r. split; [reflexivity|].
    etrans; [|exact Ht]. reflexivity.
  - exists rest.
    destruct (run_ops_extends ops (header_line +:+ rest)) as [t Ht].
    exists t. split; [reflexivity|].
    etrans; [|exact Ht]. reflexivity.
Qed.

End Header.

(** ** Fields beyond the limit *)

Section TooLong.

Lemma length_times (c : ascii) (n : nat) : String.length (times c n) = n.
Proof. induction n as [|n IH]; [done|]. cbn [times String.length]. by rewrite IH. Qed.

Lemma must_quote_times (c : ascii) (n : nat) :
  needs_quote c = false -> must_quote (times c n) = false.
Proof.
  intros Hc. induction n as [|n IH]; [done|].
  cbn [times must_quote]. by rewrite Hc, IH.
Qed.

Lemma all_chars_times (p : ascii -> bool) (c : ascii) (n : nat) :
  p c = true -> Sample.all_chars p (times c n) = true.
Proof.
  intros Hc. induction n as [|n IH]; [done|].
  cbn [times Sample.all_chars]. by rewrite Hc, IH.
Qed.

Lemma ends_nonspace_times (c : ascii) (n : nat) :
  isspace c = false -> ends_nonspace (times c (S n)) = true.
Proof.
  intros Hc. induction n as [|n IH].
  - cbn [times ends_nonspace]. by rewrite Hc.
  - change (times c (S (S n))) with (String c (times c (S n))).
    by rewrite ends_nonspace_cons.
Qed.

Lemma strip_times (c : ascii) (n : nat) :
  isspace c = false -> strip (times c n) = times c n.
Proof.
  intros Hc. apply strip_fixed. destruct n as [|n]; [by left|]. right.
  split; [cbn [times starts_nonspace]; by rewrite Hc|by apply ends_nonspace_times].
Qed.

Lemma not_fits_times (c : ascii) (n : nat) :
  (field_size_limit < N.of_nat n)%N -> ~ fits (times c n).
Proof. unfold fits. rewrite length_times. lia. Qed.

(** The validator of the spec sets no maximum length: a name of any
    number of letters, two at least, passes. *)
Lemma sample_validate_name_times (n : nat) :
  2 <= n ->
  Sample.sample_validate_name (times "a"%char n) = (true, EmptyString).
Proof.
  intros Hn. unfold Sample.sample_validate_name.
  rewrite strip_times, length_times, all_chars_times by done.
  assert ((n <? Sample.MIN_NAME_LENGTH) = false) as ->
    by (apply Nat.ltb_ge; unfold Sample.MIN_NAME_LENGTH; lia).
  destruct n as [|n]; [lia|]. reflexivity.
Qed.

(** A store whose last line begins with an unquoted field beyond the
    limit cannot be listed. *)
Lemma get_all_registrations_overflow (es : list entry) (e : entry) :
  Forall entry_fits es -> must_quote (e_name e) = false -> ~ fits (e_name e) ->
  get_all_registrations (store_of (es ++ [e]))
  = (Raises CsvError, store_of (es ++ [e])).
Proof.
  intros Hfit Hq Hover. unfold store_of. rewrite file_text_snoc.
  cbv [get_all_registrations mbind path_exists open_r_lines lift mret negb].
  rewrite read_file_text_then by done.
  rewrite <- (append_nil_r (writerow (entry_row e))).
  unfold entry_row. by rewrite read_written_overflow.
Qed.

Lemma long_name_eq :
  Scenario.long_name = times "a"%char (N.to_nat 131073).
Proof. reflexivity. Qed.

Lemma long_name_facts :
  must_quote Scenario.long_name = false
  /\ ~ fits Scenario.long_name
  /\ strip Scenario.long_name = Scenario.long_name
  /\ Sample.sample_validate_name Scenario.long_name = (true, EmptyString).
Proof.
  rewrite long_name_eq.
  split; [by apply must_quote_times|].
  split; [apply not_fits_times; rewrite N2Nat.id; unfold field_size_limit; lia|].
  split; [by apply strip_times|].
  apply sample_validate_name_times. lia.
Qed.

Context `{V : RegistrationValidator}.

(** After a successful call whose trimmed name needs no quotes and is
    beyond the limit, the file cannot be listed. *)
Lemma add_registration_overflow (es : list entry) (name email dob : string)
      (now : datetime) :
  Forall entry_fits es ->
  all_valid name email dob = true ->
  existsb (same_email email) es = false ->
  must_quote (strip name) = false -> ~ fits (strip name) ->
  exists msg data fs',
    add_registration name email dob now (store_of es)
    = (Returns (Success msg data), fs')
    /\ fs' = store_of (es ++ [new_entry name email dob now])
    /\ get_all_registrations fs' = (Raises CsvError, fs').
Proof.
  intros Hfit Hv Hd Hq Hover. do 3 eexists.
  split; [by apply add_registration_success|].
  split; [done|]. by apply get_all_registrations_overflow.
Qed.

End TooLong.

(** ** Emails with surrounding whitespace *)

Section PaddedEmail.











End PaddedEmail.


(** ** The theorems at concrete inputs *)

Section Runs.

Import Scenario.

(** Fields of stated length are within the limit. *)
Ltac solve_fits := repeat constructor; vm_compute; discriminate.

Lemma store_john_eq : store_john = store_of [john].
Proof. vm_compute. reflexivity. Qed.

Lemma store_doe_roe_eq : store_doe_roe = store_of [john_x; jane_x].
Proof. vm_compute. reflexivity. Qed.

Lemma fresh_eq : fresh = store_of [].
Proof. vm_compute. reflexivity. Qed.

Lemma john_fits : Forall entry_fits [john].
Proof. solve_fits. Qed.

Lemma john_x_fits : Forall entry_fits [john_x].
Proof. solve_fits. Qed.

Lemma doe_roe_fits : Forall entry_fits [john_x; jane_x].
Proof. solve_fits. Qed.


(** The long name passes the validation of the spec. *)
Lemma long_name_valid (email dob : string) :
  fst (validate_email (RegistrationValidator := V0) email) = true ->
  fst (validate_date_of_birth (RegistrationValidator := V0) dob) = true ->
  all_valid (V := V0) long_name email dob = true.
Proof.
  intros He Hd. unfold all_valid. rewrite He, Hd.
  unfold V0, Sample.SampleValidator. cbn [validate_name].
  by rewrite (proj2 (proj2 (proj2 long_name_facts))).
Qed.

(** Registering the long name succeeds and leaves a file that cannot be
    listed. *)
Lemma long_name_run (es : list entry) (email : string) (now : datetime) :
  Forall entry_fits es ->
  fst (validate_email (RegistrationValidator := V0) email) = true ->
  existsb (same_email email) es = false ->
  exists msg data fs',
    add_registration (V := V0) long_name email "1990-01-15" now (store_of es)
    = (Returns (Success msg data), fs')
    /\ fs' = store_of (es ++ [new_entry long_name email "1990-01-15" now])
    /\ get_all_registrations fs' = (Raises CsvError, fs').
Proof.
  intros Hfit He Hd.
  destruct long_name_facts as (Hq & Hover & Hstrip & _).
  apply add_registration_overflow; [done| |done|..].
  - by apply long_name_valid.
  - by rewrite Hstrip.
  - by rewrite Hstrip.
Qed.

Lemma add_reports_every_failure_witness :
  (fst (validate_name (RegistrationValidator := V0) "J") = false
   \/ fst (validate_email (RegistrationValidator := V0) "john-at-example") = false
   \/ fst (validate_date_of_birth (RegistrationValidator := V0) "15-01-1990") = false)
  /\ add_registration (V := V0) "J" "john-at-example" "15-01-1990" clock2
       (store_of [john])
     = (Returns (ValidationFailed
                   ["InvalidName"; "InvalidEmail"; "InvalidDateFormat"]),
        store_of [john]).
Proof.
  assert (fst (validate_name (RegistrationValidator := V0) "J") = false
          \/ fst (validate_email (RegistrationValidator := V0) "john-at-example") = false
          \/ fst (validate_date_of_birth (RegistrationValidator := V0) "15-01-1990") = false)
    as H by (left; reflexivity).
  split; [exact H|].
  exact (proj1 (add_reports_every_failure (V := V0)
                  "J" "john-at-example" "15-01-1990" clock2 (store_of [john]) H)).
Defined.

Lemma validation_precedes_duplicate_check_witness :
  add_registration (V := V0) "J" "john@example.com" "1990-01-15" clock2
    (store_of [john])
  = (Returns (ValidationFailed ["InvalidName"; EmptyString; EmptyString]),
     store_of [john]).
Proof.
  refine (proj1 (validation_precedes_duplicate_check (V := V0)
                   "J" "john@example.com" "1990-01-15" clock2 (store_of [john])
                   _ _)).
  - left. reflexivity.
  - vm_compute. reflexivity.
Defined.


Lemma add_appends_one_record_witness :
  exists msg data fs' r,
    add_registration (V := V0) "Jane Roe" "jane@x.com" "1992-07-04" clock2
      (store_of [john_x])
    = (Returns (Success msg data), fs')
    /\ fs' = Some (file_text [john_x]
                   +:+ writerow ["Jane Roe"; "jane@x.com"; "1992-07-04";
                                 "2026-11-03 09:06:30"])
    /\ get_all_registrations fs'
       = (Returns {| l_success := true; l_count := None;
                     l_data := [listed john_x] ++ [r] |}, fs')
    /\ str_field r "Name" = Some "Jane Roe"
    /\ str_field r "Email" = Some "jane@x.com"
    /\ str_field r "Date_of_Birth" = Some "1992-07-04"
    /\ str_field r "Registration_Date" = Some "2026-11-03 09:06:30".
Proof.
  refine (add_appends_one_record (V := V0) [john_x]
            {| l_success := true; l_count := None; l_data := [listed john_x] |}
            "Jane Roe" "jane@x.com" "1992-07-04" clock2 _ _ _ _ _ _ _).
  - apply john_x_fits.
  - vm_compute. discriminate.
  - vm_compute. discriminate.
  - vm_compute. discriminate.
  - vm_compute. reflexivity.
  - apply get_all_registrations_store, john_x_fits.
  - intros r e Hr He. apply list_elem_of_singleton in Hr. subst r.
    rewrite str_field_listed_email in He. injection He as <-.
    vm_compute. discriminate.
Defined.

(** C4 as stated fails: the validator of the spec sets no maximum length,
    so a name of 131073 letters is valid; the call succeeds and writes the
    line, and the listing afterwards raises the error of the csv reader
    for a field beyond its limit instead of returning the records. *)
Lemma add_appends_counterexample :
  get_all_registrations fresh
  = (Returns {| l_success := true; l_count := None; l_data := [] |}, fresh)
  /\ all_valid (V := V0) long_name "long@example.com" "1990-01-15" = true
  /\ exists msg data fs',
       add_registration (V := V0) long_name "long@example.com" "1990-01-15"
         clock1 fresh
       = (Returns (Success msg data), fs')
       /\ get_all_registrations fs' = (Raises CsvError, fs').
Proof.
  split; [vm_compute; reflexivity|].
  split; [by apply long_name_valid|].
  rewrite fresh_eq.
  destruct (long_name_run [] "long@example.com" clock1)
    as (msg & data & fs' & Hadd & _ & Hlist); [constructor|done..|].
  exists msg, data, fs'. exact (conj Hadd Hlist).
Qed.

Lemma add_then_list_witness :
  exists l r,
    get_all_registrations (store_of [john]) = (Returns l, store_of [john])
    /\ last (l_data l) = Some r
    /\ str_field r "Name" = Some "John Doe"
    /\ str_field r "Email" = Some "john@example.com"
    /\ str_field r "Date_of_Birth" = Some "1990-01-15"
    /\ str_field r "Registration_Date" = Some "2026-11-03 09:05:07"
    /\ listed john = r.
Proof.
  destruct (add_then_list (V := V0) [] "John Doe" "john@example.com" "1990-01-15"
              clock1 "Registered John Doe" (listed john) (store_of [john]))
    as (l & r & _ & Hl & Hlast & Hn & He & Hd & Ht & _ & Heq).
  { constructor. }
  { vm_compute. discriminate. }
  { vm_compute. discriminate. }
  { vm_compute. discriminate. }
  { vm_compute. reflexivity. }
  exists l, r. repeat (split; [assumption|]).
  apply Heq; reflexivity.
Defined.

(** C3 as stated fails: a name with a leading space passes validation and
    is stored trimmed, so the listing does not reproduce it and the echoed
    record is not the stored one; and after the successful call with a
    name of 131073 letters the listing retrieves no record at all: it
    raises the error of the csv reader for a field beyond its limit. *)
Lemma add_then_list_counterexample :
  (exists msg data fs' l r,
     add_registration (V := V0) " John Doe" "john@example.com" "1990-01-15"
       clock1 fresh
     = (Returns (Success msg data), fs')
     /\ get_all_registrations fs' = (Returns l, fs')
     /\ last (l_data l) = Some r
     /\ str_field r "Name" = Some "John Doe"
     /\ str_field r "Name" <> Some " John Doe"
     /\ str_field data "Name" = Some " John Doe"
     /\ data <> r)
  /\ (exists msg data fs',
        add_registration (V := V0) long_name "jane@example.com" "1990-01-15"
          clock2 (store_of [john])
        = (Returns (Success msg data), fs')
        /\ get_all_registrations fs' = (Raises CsvError, fs')).
Proof.
  split.
  - eexists _, _, _,
      {| l_success := true; l_count := None; l_data := [listed john] |},
      (listed john).
    split; [vm_compute; reflexivity|].
    split; [vm_compute; reflexivity|].
    split; [reflexivity|].
    split; [vm_compute; reflexivity|].
    split; [vm_compute; discriminate|].
    split; [vm_compute; reflexivity|].
    intros Heq. apply (f_equal (fun d => str_field d "Name")) in Heq.
    vm_compute in Heq. discriminate Heq.
  - destruct (long_name_run [john] "jane@example.com" clock2)
      as (msg & data & fs' & Hadd & _ & Hlist);
      [apply john_fits|done..|].
    exists msg, data, fs'. exact (conj Hadd Hlist).
Qed.



Lemma header_stays_first_witness :
  exists rest written,
    snd (init None) = Some (header_line +:+ rest)
    /\ run_ops (V := V0)
         [OpAdd "John Doe" "john@x.com" "1990-01-15" clock1; OpList;
          OpSearch "doe"; OpAdd "Jane Roe" "jane@x.com" "1992-07-04" clock2]
         (snd (init None))
       = Some ((header_line +:+ rest) +:+ written).
Proof.
  exact (proj2 (proj2 (proj2
           (header_stays_first (V := V0) None
              [OpAdd "John Doe" "john@x.com" "1990-01-15" clock1; OpList;
               OpSearch "doe"; OpAdd "Jane Roe" "jane@x.com" "1992-07-04" clock2]
              (or_introl eq_refl))))).
Defined.

(** C8 as stated fails: constructed on an existing empty file, the store
    writes no header, and the first line of the file is the first record. *)
Lemma header_counterexample :
  snd (init (Some EmptyString)) = Some EmptyString
  /\ run_ops (V := V0) [OpAdd "John Doe" "john@example.com" "1990-01-15" clock1]
       (snd (init (Some EmptyString)))
     = Some ("John Doe,john@example.com,1990-01-15,2026-11-03 09:05:07"
             +:+ String CR (String LF EmptyString))
  /\ ~ (exists rest,
          run_ops (V := V0)
            [OpAdd "John Doe" "john@example.com" "1990-01-15" clock1]
            (snd (init (Some EmptyString)))
          = Some (header_line +:+ rest)).
Proof.
  assert (run_ops (V := V0)
            [OpAdd "John Doe" "john@example.com" "1990-01-15" clock1]
            (snd (init (Some EmptyString)))
          = Some ("John Doe,john@example.com,1990-01-15,2026-11-03 09:05:07"
                  +:+ String CR (String LF EmptyString))) as Hrun
    by (vm_compute; reflexivity).
  split; [reflexivity|]. split; [exact Hrun|].
  intros [rest Hrest]. rewrite Hrun, header_line_text in Hrest.
  discriminate Hrest.
Qed.



End Runs.

(** * Further properties of the manager *)

(** ** Line breaks through the text layer *)

Section CarriageReturns.

Lemma mem_CR_translate (b : bool) (s : string) :
  mem CR (translate b s) = false.
Proof.
  revert b. induction s as [|c s IH]; intros b; [reflexivity|].
  rewrite translate_cons. destruct (Ascii.eqb c CR) eqn:Hc.
  - cbn [mem]. by rewrite IH.
  - destruct (Ascii.eqb c LF && b); [apply IH|].
    cbn [mem]. rewrite Ascii.eqb_sym, Hc. apply IH.
Qed.

Lemma translate_no_CR (s : string) :
  mem CR s = false -> universal_newlines s = s.
Proof.
  unfold universal_newlines. induction s as [|c s IH]; [reflexivity|].
  cbn [mem]. intros H. apply orb_false_elim in H as [Hc Hs].
  rewrite translate_cons, Ascii.eqb_sym, Hc, andb_false_r. by rewrite IH.
Qed.

Lemma map_translate_no_CR (row : list string) :
  Forall (fun f => mem CR f = false) row -> map universal_newlines row = row.
Proof.
  induction 1 as [|f row Hf _ IH]; [reflexivity|].
  cbn [map]. by rewrite translate_no_CR, IH.
Qed.

(** X1. A row whose fields hold no carriage return and are within the
    field size limit of the reader, whatever else they hold, comes back
    from the reader exactly as it was handed to [writerow]. *)
Theorem csv_round_trip (row : list string) :
  row <> [] ->
  Forall fits row ->
  Forall (fun f => mem CR f = false) row ->
  reader_list (iter_lines (universal_newlines (writerow row))) = Returns [row].
Proof.
  intros Hne Hfit Hcr. rewrite reader_list_read_text.
  rewrite <- (append_nil_r (writerow row)).
  rewrite read_written by done.
  by rewrite map_translate_no_CR.
Qed.

Lemma no_CR_listed (e : entry) : no_CR_record (listed e).
Proof.
  intros key s. unfold str_field. rewrite listed_eq.
  rewrite !lookup_insert. repeat case_decide; rewrite ?lookup_empty;
    intros Hs; simplify_eq; apply mem_CR_translate.
Qed.

End CarriageReturns.

(** ** What a store can always read *)

Section AlwaysReadable.

Lemma Forall_listed (P : pydict -> Prop) (es : list entry) :
  (forall e, P (listed e)) -> Forall P (map listed es).
Proof.
  intros HP. induction es as [|e es IH]; cbn [map]; constructor; auto.
Qed.

Lemma full_record_listed (e : entry) : full_record (listed e).
Proof.
  unfold full_record.
  rewrite str_field_listed_name, str_field_listed_email,
    str_field_listed_dob, str_field_listed_date.
  repeat split; eauto.
Qed.

Lemma run_op_grows `{V : RegistrationValidator} (es : list entry) (o : op) :
  exists es', run_op (store_of es) o = store_of (es ++ es')
              /\ length es' <= (if is_add o then 1 else 0)
              /\ Forall email_trimmed es'
              /\ (fitting_op o -> Forall entry_fits es').
Proof.
  destruct (run_op_store es o) as [->|(name & email & dob & now & -> & ->)].
  - exists []. rewrite List.app_nil_r.
    split; [done|]. split; [cbn [length]; lia|]. by split.
  - exists [new_entry name email dob now].
    split; [done|]. split; [done|]. split.
    + constructor; [apply email_trimmed_new_entry|constructor].
    + intros (Hn & He & Hd).
      constructor; [by apply entry_fits_new_entry|constructor].
Qed.

(** The states a store goes through: the entries it had, followed by at
    most one new entry per call of [add_registration]; the emails of the
    new entries are trimmed, and their fields are within the field size
    limit when those of the calls are. *)
Lemma run_ops_grows `{V : RegistrationValidator} (ops : list op)
      (es : list entry) :
  exists es', run_ops ops (store_of es) = store_of (es ++ es')
              /\ length es' <= length (List.filter is_add ops)
              /\ Forall email_trimmed es'
              /\ (Forall fitting_op ops -> Forall entry_fits es').
Proof.
  revert es. induction ops as [|o ops IH]; intros es.
  - exists []. rewrite List.app_nil_r. by repeat split.
  - change (run_ops (o :: ops) (store_of es))
      with (run_ops ops (run_op (store_of es) o)).
    destruct (run_op_grows es o) as (es1 & -> & Hl1 & Ht1 & Hf1).
    destruct (IH (es ++ es1)) as (es2 & -> & Hl2 & Ht2 & Hf2).
    exists (es1 ++ es2). rewrite (assoc_L (++)). split; [done|].
    split; [|split].
    + rewrite length_app. cbn [List.filter].
      destruct (is_add o); cbn [length]; lia.
    + by apply Forall_app.
    + intros [Ho Hops]%Forall_cons. apply Forall_app. auto.
Qed.

Context `{V : RegistrationValidator}.

(** X2. From a construction where no file was, after any sequence of
    calls that hand [add_registration] names, emails and dates of birth
    within the field size limit of the csv reader, the listing succeeds,
    and each of its records has the four fields as strings, none of which
    holds a carriage return: whatever else the registered names, emails
    and dates contain (commas, quotes, line breaks), the store reads back
    what it wrote. *)
Theorem reachable_listing (ops : list op) :
  Forall fitting_op ops ->
  exists l,
    get_all_registrations (run_ops ops (snd (init None)))
    = (Returns l, run_ops ops (snd (init None)))
    /\ l_success l = true
    /\ Forall full_record (l_data l)
    /\ Forall no_CR_record (l_data l).
Proof.
  intros Hops. rewrite init_absent.
  destruct (run_ops_grows ops []) as (es & -> & _ & _ & Hfit).
  rewrite get_all_registrations_store by auto.
  eexists. split; [reflexivity|].
  cbn [l_success l_data]. split; [reflexivity|].
  split; apply Forall_listed; [apply full_record_listed|apply no_CR_listed].
Qed.

End AlwaysReadable.

(** ** A store without its header line *)

Section NoHeader.

Lemma rows_single (row : list string) : DictReader.rows [row] = [].
Proof. reflexivity. Qed.

(** A file that holds one written line and nothing else lists no record:
    the line is taken for the header. *)
Lemma get_all_registrations_single_line (row : list string) :
  row <> [] -> Forall fits row ->
  get_all_registrations (Some (writerow row))
  = (Returns {| l_success := true; l_count := None; l_data := [] |},
     Some (writerow row)).
Proof.
  intros Hne Hfit.
  cbv [get_all_registrations mbind path_exists open_r_lines lift mret negb].
  rewrite reader_list_read_text.
  rewrite <- (append_nil_r (writerow row)).
  rewrite read_written by done.
  reflexivity.
Qed.

Lemma get_all_registrations_empty_file :
  get_all_registrations (Some EmptyString)
  = (Returns {| l_success := true; l_count := None; l_data := [] |},
     Some EmptyString).
Proof. vm_compute. reflexivity. Qed.

Lemma email_exists_no_records (email : string) (fs : fstate) (l : listing) :
  get_all_registrations fs = (Returns l, fs) -> l_data l = [] ->
  email_exists email fs = (Returns false, fs).
Proof.
  intros Hl Hd. unfold email_exists, mbind, lift. by rewrite Hl, Hd.
Qed.

Context `{V : RegistrationValidator}.

(** X3. When the file is absent or empty at the time of the call (it was
    removed after the construction, or the store was constructed on an
    empty file), a valid [add_registration] succeeds and leaves a file
    that holds the new line alone, without header; when the fields of
    that line are within the field size limit of the csv reader, the
    listing of that file is empty, and the duplicate check does not find
    the email that was just registered. *)
Theorem add_without_header (fs : fstate) (name email dob : string)
    (now : datetime) :
  fs = None \/ fs = Some EmptyString ->
  fits (strip name) -> fits (strip email) -> fits dob ->
  all_valid name email dob = true ->
  exists msg data,
    add_registration name email dob now fs
    = (Returns (Success msg data),
       Some (writerow [strip name; strip email; dob; strftime now]))
    /\ get_all_registrations
         (Some (writerow [strip name; strip email; dob; strftime now]))
       = (Returns {| l_success := true; l_count := None; l_data := [] |},
          Some (writerow [strip name; strip email; dob; strftime now]))
    /\ email_exists email
         (Some (writerow [strip name; strip email; dob; strftime now]))
       = (Returns false,
          Some (writerow [strip name; strip email; dob; strftime now])).
Proof.
  intros Hfs Hfn Hfe Hfd Hv.
  assert (Forall fits [strip name; strip email; dob; strftime now]) as Hrow
    by (repeat constructor; try done; apply fits_strftime).
  do 2 eexists. split; [|split].
  - rewrite add_registration_valid by done.
    unfold mbind at 1.
    assert (email_exists email fs = (Returns false, fs)) as ->.
    { destruct Hfs as [-> | ->].
      - by apply (email_exists_no_records _ _ _ get_all_registrations_absent).
      - by apply (email_exists_no_records _ _ _ get_all_registrations_empty_file). }
    cbv [mbind open_a_write mret].
    destruct Hfs as [-> | ->]; reflexivity.
  - by apply get_all_registrations_single_line.
  - eapply email_exists_no_records; [by apply get_all_registrations_single_line|done].
Qed.

End NoHeader.

(** ** Searching records that lack a field *)

Section SearchEdges.

Lemma contains_empty (t : string) : contains EmptyString t = true.
Proof. by destruct t. Qed.

Lemma search_test_searchable (needle : string) (r : pydict) :
  searchable needle r ->
  search_test needle r
  = Returns (name_matches needle r || email_matches needle r).
Proof.
  intros [[n Hn] Hor]. unfold search_test, name_matches, email_matches in *.
  rewrite (str_field_getitem _ _ _ Hn), Hn in *. cbn [obind].
  destruct (contains needle (lower n)); [reflexivity|].
  destruct Hor as [|[e He]]; [done|].
  by rewrite (str_field_getitem _ _ _ He), He.
Qed.

Lemma search_filter_searchable (needle : string) (data : list pydict) :
  Forall (searchable needle) data ->
  search_filter needle data
  = Returns (List.filter
               (fun r => name_matches needle r || email_matches needle r) data).
Proof.
  induction 1 as [|r data Hr _ IH]; [reflexivity|].
  cbn [search_filter List.filter]. rewrite search_test_searchable, IH by done.
  cbn [obind]. by destruct (name_matches needle r || email_matches needle r).
Qed.

(** X4. The search reads the email of a record only when its name does
    not match: on records that each have a name, and an email unless the
    name already holds the trimmed, lower-cased query, the search returns
    the records whose name or email holds it, in order, with their
    number.  A record without email whose name matches is found. *)
Theorem search_by_name_first (fs : fstate) (l : listing) (query : string) :
  get_all_registrations fs = (Returns l, fs) ->
  Forall (searchable (strip (lower query))) (l_data l) ->
  search_registrations query fs
  = (Returns
       {| l_success := true;
          l_count :=
            Some (length
                    (List.filter
                       (fun r => name_matches (strip (lower query)) r
                                 || email_matches (strip (lower query)) r)
                       (l_data l)));
          l_data :=
            List.filter
              (fun r => name_matches (strip (lower query)) r
                        || email_matches (strip (lower query)) r)
              (l_data l) |},
     fs).
Proof.
  intros Hl Hs. unfold search_registrations, mbind. rewrite Hl.
  unfold lift. by rewrite search_filter_searchable.
Qed.

Lemma filter_all {A : Type} (p : A -> bool) (l : list A) :
  Forall (fun x => p x = true) l -> List.filter p l = l.
Proof.
  induction 1 as [|x l Hx _ IH]; [reflexivity|].
  cbn [List.filter]. by rewrite Hx, IH.
Qed.

(** X5. A query that is empty or made of whitespace matches every record:
    when each listed record has a name, the search returns the whole
    listing with its length as count, without reading any email. *)
Theorem search_blank_query (fs : fstate) (l : listing) (query : string) :
  get_all_registrations fs = (Returns l, fs) ->
  Forall (fun r => is_Some (str_field r "Name")) (l_data l) ->
  strip (lower query) = EmptyString ->
  search_registrations query fs
  = (Returns {| l_success := true; l_count := Some (length (l_data l));
                l_data := l_data l |}, fs).
Proof.
  intros Hl Hn Hq. unfold search_registrations, mbind. rewrite Hl, Hq.
  unfold lift.
  assert (Forall (fun r => name_matches EmptyString r
                           || email_matches EmptyString r = true) (l_data l))
    as Hall.
  { eapply Forall_impl; [exact Hn|]. intros r [n Hr].
    unfold name_matches. by rewrite Hr, contains_empty. }
  rewrite search_filter_searchable.
  - by rewrite (filter_all _ _ Hall).
  - eapply Forall_impl; [exact Hn|]. intros r [n Hr]. split; [eauto|left].
    unfold name_matches. by rewrite Hr, contains_empty.
Qed.

End SearchEdges.

(** ** The duplicate check on a damaged file *)

Section DamagedFile.


Lemma getitem_not_str (r : pydict) (key : string) :
  str_field r key = None ->
  exists e, obind (getitem r key) value_lower = Raises e
            /\ (e = KeyError key \/ e = AttributeError).
Proof.
  unfold str_field, getitem.
  destruct (r !! Some key) as [[s| |l]|]; [done|..]; intros _; eauto.
Qed.

Lemma any_email_raises (email : string) (pre post : list pydict) (r : pydict) :
  Forall (fun r' => exists e, str_field r' "Email" = Some e
                              /\ lower e <> lower email) pre ->
  str_field r "Email" = None ->
  exists e, any_email email (pre ++ r :: post) = Raises e
            /\ (e = KeyError "Email" \/ e = AttributeError).
Proof.
  intros Hpre Hr. induction Hpre as [|r' pre (e' & He' & Hne) _ IH].
  - cbn [app any_email].
    destruct (getitem_not_str _ _ Hr) as (e & -> & He). by exists e.
  - cbn [app any_email]. rewrite (str_field_getitem _ _ _ He'). cbn [obind].
    apply String.eqb_neq in Hne. by rewrite Hne.
Qed.

Context `{V : RegistrationValidator}.


(** X7. A record without an email (a short line, or a file whose header
    has no Email column) that comes before any record with the supplied
    email makes the duplicate check raise, [KeyError] or
    [AttributeError]: a valid [add_registration] raises it too and writes
    nothing. *)
Theorem damaged_record_blocks_add (name email dob : string)
    (now : datetime) (fs : fstate) (l : listing) (pre post : list pydict)
    (r : pydict) :
  all_valid name email dob = true ->
  get_all_registrations fs = (Returns l, fs) ->
  l_data l = pre ++ r :: post ->
  Forall (fun r' => exists e, str_field r' "Email" = Some e
                              /\ lower e <> lower email) pre ->
  str_field r "Email" = None ->
  exists e,
    (e = KeyError "Email" \/ e = AttributeError)
    /\ email_exists email fs = (Raises e, fs)
    /\ add_registration name email dob now fs = (Raises e, fs).
Proof.
  intros Hv Hl Hd Hpre Hr.
  destruct (any_email_raises email pre post r Hpre Hr) as (e & Hany & He).
  exists e. split; [done|].
  assert (email_exists email fs = (Raises e, fs)) as Hex.
  { unfold email_exists, mbind, lift. by rewrite Hl, Hd, Hany. }
  split; [done|].
  rewrite add_registration_valid by done.
  unfold mbind at 1. by rewrite Hex.
Qed.

End DamagedFile.

(** ** Sequences of calls *)

Section Sequences.

Lemma record_email_key_listed (e : entry) :
  record_email_key (listed e) = Some (email_key e).
Proof. unfold record_email_key. by rewrite str_field_listed_email. Qed.

Lemma NoDup_map_Some {A : Type} (l : list A) :
  NoDup l -> NoDup (map Some l).
Proof.
  induction 1 as [|x l Hx _ IH]; cbn [map]; constructor; [|done].
  intros Hin. apply Hx. apply list_elem_of_In in Hin.
  apply in_map_iff in Hin as (y & [= ->] & Hy). by apply list_elem_of_In.
Qed.

Lemma map_record_email_key (es : list entry) :
  map record_email_key (map listed es) = map Some (map email_key es).
Proof.
  induction es as [|e es IH]; [reflexivity|].
  cbn [map]. by rewrite record_email_key_listed, IH.
Qed.

Lemma same_email_key (email : string) (e : entry) :
  same_email email e = false -> email_key e <> lower email.
Proof. unfold same_email, email_key. by intros H%String.eqb_neq. Qed.

Context `{V : RegistrationValidator}.

Lemma run_op_unique (es : list entry) (o : op) :
  Forall entry_fits es -> NoDup (map email_key es) ->
  clean_op o -> fitting_op o ->
  exists es', run_op (store_of es) o = store_of es'
              /\ Forall entry_fits es' /\ NoDup (map email_key es').
Proof.
  intros Hfit Hnd Hclean Hop.
  destruct o as [name email dob now| |query]; cbn [run_op].
  - destruct Hclean as [Hstrip Hun]. destruct Hop as (Hfn & Hfe & Hfd).
    destruct (all_valid name email dob) eqn:Hv.
    + destruct (existsb (same_email email) es) eqn:Hd.
      * exists es. by rewrite add_registration_duplicate.
      * exists (es ++ [new_entry name email dob now]).
        rewrite add_registration_success by done. split; [done|].
        split; [by apply Forall_snoc_fits, entry_fits_new_entry|].
        rewrite map_app. apply NoDup_app. split; [done|]. split.
        -- intros k Hk Hk'. cbn [map] in Hk'.
           apply list_elem_of_singleton in Hk'. subst k.
           apply list_elem_of_In, in_map_iff in Hk as (e0 & He0 & Hin).
           assert (same_email email e0 = false) as Hs.
           { destruct (same_email email e0) eqn:Hs; [|done].
             assert (existsb (same_email email) es = true) as Hex
               by (apply existsb_exists; eauto).
             congruence. }
           apply same_email_key in Hs. apply Hs. rewrite He0.
           unfold email_key. cbn [new_entry e_email]. by rewrite Hstrip, Hun.
        -- cbn [map]. apply NoDup_singleton.
    + exists es. by rewrite add_registration_invalid.
  - exists es. by rewrite get_all_registrations_state.
  - exists es. by rewrite search_registrations_state.
Qed.

Lemma run_ops_unique (ops : list op) (es : list entry) :
  Forall entry_fits es -> NoDup (map email_key es) ->
  Forall clean_op ops -> Forall fitting_op ops ->
  exists es', run_ops ops (store_of es) = store_of es'
              /\ Forall entry_fits es' /\ NoDup (map email_key es').
Proof.
  revert es. induction ops as [|o ops IH]; intros es Hfit Hnd Hclean Hops.
  - by exists es.
  - apply Forall_cons in Hclean as [Ho Hclean].
    apply Forall_cons in Hops as [Hfo Hops].
    change (run_ops (o :: ops) (store_of es))
      with (run_ops ops (run_op (store_of es) o)).
    destruct (run_op_unique es o Hfit Hnd Ho Hfo) as (es1 & -> & Hfit1 & Hnd1).
    by apply IH.
Qed.

(** X8. From a construction where no file was, as long as every email
    handed to [add_registration] has no surrounding whitespace and no
    carriage return, and the names, emails and dates of birth handed to it
    are within the field size limit of the csv reader, no two records of
    the listing have the same email, letter case aside, and every record
    has an email. *)
Theorem clean_adds_keep_emails_unique (ops : list op) :
  Forall clean_op ops ->
  Forall fitting_op ops ->
  exists l,
    get_all_registrations (run_ops ops (snd (init None)))
    = (Returns l, run_ops ops (snd (init None)))
    /\ Forall (fun r => is_Some (str_field r "Email")) (l_data l)
    /\ NoDup (map record_email_key (l_data l)).
Proof.
  intros Hclean Hops. rewrite init_absent.
  destruct (run_ops_unique ops [] (Forall_nil_2 _) (NoDup_nil_2) Hclean Hops)
    as (es & -> & Hfit & Hnd).
  rewrite get_all_registrations_store by done.
  eexists. split; [reflexivity|].
  cbn [l_data]. split.
  - apply Forall_listed. intros e. rewrite str_field_listed_email. eauto.
  - rewrite map_record_email_key. by apply NoDup_map_Some.
Qed.

(** X9. Calls never remove, reorder or change a record: on a file written
    by the store, when the stored fields and the names, emails and dates
    of birth handed to [add_registration] are within the field size limit
    of the csv reader, the listing after any sequence of calls is the
    former listing followed by at most one new record per call of
    [add_registration]. *)
Theorem listing_only_grows (ops : list op) (es : list entry) :
  Forall entry_fits es ->
  Forall fitting_op ops ->
  exists before after more,
    get_all_registrations (store_of es) = (Returns before, store_of es)
    /\ get_all_registrations (run_ops ops (store_of es))
       = (Returns after, run_ops ops (store_of es))
    /\ l_data after = l_data before ++ more
    /\ length more <= length (List.filter is_add ops).
Proof.
  intros Hfit Hops.
  destruct (run_ops_grows ops es) as (es' & -> & Hlen & _ & Hfit').
  do 2 eexists. exists (map listed es').
  split; [by apply get_all_registrations_store|].
  split; [apply get_all_registrations_store, Forall_app; auto|].
  cbn [l_data]. split; [apply map_app|]. by rewrite length_map.
Qed.

End Sequences.

(** * The tool adapters *)

Section Reports.

Variable list_repr : list string -> string.

Lemma format_item_str (r : pydict) (key s : string) :
  str_field r key = Some s -> Tools.format_item list_repr r key = Returns s.
Proof.
  unfold str_field, Tools.format_item, getitem.
  destruct (r !! Some key) as [[| |]|]; naive_solver.
Qed.

Lemma format_row_listed (i : nat) (e : entry) :
  Tools.format_row list_repr i (listed e) = Returns (report_line i e).
Proof.
  unfold Tools.format_row.
  rewrite (format_item_str _ _ _ (str_field_listed_name e)),
    (format_item_str _ _ _ (str_field_listed_email e)),
    (format_item_str _ _ _ (str_field_listed_dob e)),
    (format_item_str _ _ _ (str_field_listed_date e)).
  reflexivity.
Qed.

Lemma format_rows_listed (i : nat) (msg : string) (es : list entry) :
  Tools.format_rows list_repr i msg (map listed es)
  = Returns (msg +:+ report_lines i es).
Proof.
  revert i msg. induction es as [|e es IH]; intros i msg.
  - cbn [map Tools.format_rows report_lines]. by rewrite append_nil_r.
  - cbn [map Tools.format_rows report_lines]. rewrite format_row_listed.
    cbn [obind]. by rewrite IH, append_assoc.
Qed.

(** The text of the report for the entries of a store. *)
Lemma get_all_message_listed (es : list entry) :
  Tools.get_all_message list_repr
    {| l_success := true; l_count := None; l_data := map listed es |}
  = Returns (match es with
             | [] => Tools.NO_REGISTRATIONS
             | _ :: _ => Tools.ALL_REGISTRATIONS +:+ report_lines 1 es
             end).
Proof.
  unfold Tools.get_all_message. cbn [l_success l_data].
  destruct es as [|e es]; [reflexivity|].
  change (map listed (e :: es)) with (listed e :: map listed es) at 1.
  cbv beta iota. apply format_rows_listed.
Qed.

Lemma get_all_registration_store (es : list entry) :
  Forall entry_fits es ->
  Tools.get_all_registration list_repr (store_of es)
  = (Returns [Tools.mkTextContent "text"
                (match es with
                 | [] => Tools.NO_REGISTRATIONS
                 | _ :: _ => Tools.ALL_REGISTRATIONS +:+ report_lines 1 es
                 end)],
     store_of es).
Proof.
  intros Hfit. unfold Tools.get_all_registration, mbind.
  rewrite get_all_registrations_store by done. unfold lift.
  by rewrite get_all_message_listed.
Qed.

Lemma report_lines_snoc (i : nat) (es : list entry) (e : entry) :
  report_lines i (es ++ [e])
  = report_lines i es +:+ report_line (i + length es) e.
Proof.
  revert i. induction es as [|e' es IH]; intros i.
  - cbn [app report_lines length]. by rewrite Nat.add_0_r, append_nil_r.
  - cbn [app report_lines length]. rewrite IH, append_assoc.
    by rewrite Nat.add_succ_r.
Qed.

(** X10. On a file written by the store, whose fields are within the
    field size limit of the csv reader, the report of
    [get_all_registration] is the no-registrations text when there is no
    record; otherwise it is the heading followed by one line per record,
    in the order of the file, numbered from 1, with the four fields as
    the listing has them; the file is not touched. *)
Theorem report_of_store (es : list entry) :
  Forall entry_fits es ->
  Tools.get_all_registration list_repr (store_of es)
  = (Returns [Tools.mkTextContent "text"
                (match es with
                 | [] => Tools.NO_REGISTRATIONS
                 | _ :: _ => Tools.ALL_REGISTRATIONS +:+ report_lines 1 es
                 end)],
     store_of es).
Proof. apply get_all_registration_store. Qed.

Lemma get_all_registrations_success (fs : fstate) (l : listing) :
  get_all_registrations fs = (Returns l, fs) -> l_success l = true.
Proof.
  destruct fs as [text|].
  - cbv [get_all_registrations mbind path_exists open_r_lines lift mret negb].
    destruct (reader_list (iter_lines (universal_newlines text)));
      by intros [= <-].
  - by intros [= <-].
Qed.

Lemma format_rows_extends (i : nat) (msg out : string) (regs : list pydict) :
  Tools.format_rows list_repr i msg regs = Returns out ->
  exists t, out = msg +:+ t.
Proof.
  revert i msg. induction regs as [|r regs IH]; intros i msg.
  - intros [= <-]. exists EmptyString. by rewrite append_nil_r.
  - cbn [Tools.format_rows].
    destruct (Tools.format_row list_repr i r) as [line|e]; [|done].
    cbn [obind]. intros H. apply IH in H as [t ->].
    exists (line +:+ t). by rewrite append_assoc.
Qed.

(** X11. Whatever the file, the report of [get_all_registration] is the
    no-registrations text exactly when the listing of the manager is
    empty. *)
Theorem no_registrations_report (fs : fstate) (l : listing) :
  get_all_registrations fs = (Returns l, fs) ->
  Tools.get_all_registration list_repr fs
  = (Returns [Tools.mkTextContent "text" Tools.NO_REGISTRATIONS], fs)
  <-> l_data l = [].
Proof.
  intros Hl. pose proof (get_all_registrations_success _ _ Hl) as Hs.
  unfold Tools.get_all_registration, mbind. rewrite Hl.
  unfold lift, Tools.get_all_message. rewrite Hs.
  destruct (l_data l) as [|r regs] eqn:Hd; [done|].
  split; [|done].
  destruct (Tools.format_rows list_repr 1 Tools.ALL_REGISTRATIONS (r :: regs))
    as [out|e] eqn:Hout; [|done].
  apply format_rows_extends in Hout as [t ->].
  unfold mret, Tools.ALL_REGISTRATIONS, Tools.NO_REGISTRATIONS.
  rewrite !append_assoc. intros H. discriminate H.
Qed.

End Reports.

(** * The tools and the endpoints on top of the manager *)

Section Adapters.

Variable list_repr : list string -> string.

Lemma str_field_echoed (name email dob : string) (now : datetime) :
  str_field (echoed name email dob now) "Name" = Some name
  /\ str_field (echoed name email dob now) "Email" = Some email
  /\ str_field (echoed name email dob now) "Date_of_Birth" = Some dob
  /\ str_field (echoed name email dob now) "Registration_Date"
     = Some (strftime now).
Proof.
  unfold str_field, echoed.
  repeat split;
    rewrite ?lookup_insert_ne by discriminate; by rewrite lookup_insert_eq.
Qed.

Lemma add_message_success (name email dob : string) (now : datetime) :
  Tools.add_message list_repr
    (Success ("Registered " +:+ name) (echoed name email dob now))
  = Returns (success_text name email dob now).
Proof.
  destruct (str_field_echoed name email dob now) as (Hn & He & Hd & Ht).
  unfold Tools.add_message.
  rewrite (format_item_str _ _ _ _ Hn), (format_item_str _ _ _ _ He),
    (format_item_str _ _ _ _ Hd), (format_item_str _ _ _ _ Ht).
  reflexivity.
Qed.

Context `{V : RegistrationValidator}.

(** The results that [add_registration] can return. *)
Lemma add_registration_returns (name email dob : string) (now : datetime)
      (fs fs' : fstate) (r : add_result) :
  add_registration name email dob now fs = (Returns r, fs') ->
  r = ValidationFailed (messages name email dob)
  \/ r = DuplicateEmail
  \/ r = Success ("Registered " +:+ name) (echoed name email dob now).
Proof.
  destruct (all_valid name email dob) eqn:Hv.
  - rewrite add_registration_valid by done.
    cbv [mbind open_a_write mret].
    destruct (email_exists email fs) as [[[|]|e] fs1]; intros [= <- _]; auto.
  - rewrite add_registration_invalid by done. intros [= <- _]. auto.
Qed.

(** X12. After the add tool has registered a valid triple with a new
    email on a file written by the store, its text shows name, email and
    date of birth as they were supplied; when the stored fields and the
    trimmed name, the trimmed email and the date of birth are within the
    field size limit of the csv reader, the report of the listing tool is
    the former report followed by one line, numbered with the new count,
    that shows name and email trimmed. *)
Theorem report_after_add (es : list entry) (name email dob : string)
    (now : datetime) :
  Forall entry_fits es ->
  fits (strip name) -> fits (strip email) -> fits dob ->
  all_valid name email dob = true ->
  email_exists email (store_of es) = (Returns false, store_of es) ->
  exists fs',
    Tools.add_registration list_repr name email dob now (store_of es)
    = (Returns [Tools.mkTextContent "text" (success_text name email dob now)],
       fs')
    /\ Tools.get_all_registration list_repr fs'
       = (Returns
            [Tools.mkTextContent "text"
               (Tools.ALL_REGISTRATIONS +:+ report_lines 1 es
                +:+ report_line (S (length es))
                      (new_entry name email dob now))],
          fs').
Proof.
  intros Hfit Hfn Hfe Hfd Hv Hex.
  rewrite email_exists_store in Hex by done. injection Hex as Hex.
  exists (store_of (es ++ [new_entry name email dob now])). split.
  - unfold Tools.add_registration, mbind.
    rewrite add_registration_success by done.
    fold (echoed name email dob now). unfold lift.
    by rewrite add_message_success.
  - rewrite get_all_registration_store
      by by apply Forall_snoc_fits, entry_fits_new_entry.
    destruct (es ++ [new_entry name email dob now]) as [|e0 es0] eqn:Hes.
    { by destruct es. }
    rewrite <- Hes, report_lines_snoc. reflexivity.
Qed.

(** X13. The add endpoint answers every result of the manager, the
    validation failure and the duplicate email included, with a normal
    response that carries one text, which begins with the error mark for
    a failure and with the success mark for a success; it raises
    [HTTPException] with status 400 exactly when the manager raises, and
    the file is then as the manager left it. *)
Theorem add_endpoint_answers (name email dob : string) (now : datetime)
    (fs : fstate) :
  match add_registration name email dob now fs with
  | (Returns r, fs') =>
      exists text,
        Api.add_registration_http list_repr name email dob now fs
        = (Api.Responds [text], fs')
        /\ Tools.add_message list_repr r = Returns text
        /\ (a_success r = false -> exists rest, text = "❌ ERROR: " +:+ rest)
        /\ (a_success r = true -> exists rest, text = "✅ SUCCESS: " +:+ rest)
  | (Raises e, fs') =>
      Api.add_registration_http list_repr name email dob now fs
      = (Api.HTTPException 400 "Registration failed: " e, fs')
  end.
Proof.
  unfold Api.add_registration_http, Api.respond, Tools.add_registration, mbind.
  destruct (add_registration name email dob now fs) as [[r|e] fs'] eqn:Hadd;
    [|reflexivity].
  unfold lift, mret.
  destruct (add_registration_returns _ _ _ _ _ _ _ Hadd) as [->|[->| ->]].
  - eexists. split; [reflexivity|]. split; [reflexivity|].
    split; [intros _|done]. eexists. reflexivity.
  - eexists. split; [reflexivity|]. split; [reflexivity|].
    split; [intros _|done]. eexists. reflexivity.
  - rewrite add_message_success.
    eexists. split; [reflexivity|]. split; [reflexivity|].
    split; [done|intros _]. eexists. unfold success_text. reflexivity.
Qed.

(** X14. From a construction where no file was, after any sequence of
    calls that hand [add_registration] names, emails and dates of birth
    within the field size limit of the csv reader, the listing endpoint
    answers with a normal response that carries the report; it does not
    raise. *)
Theorem listing_endpoint_on_reachable (ops : list op) :
  Forall fitting_op ops ->
  exists es,
    run_ops ops (snd (init None)) = store_of es
    /\ Api.get_all_registrations_http list_repr (run_ops ops (snd (init None)))
       = (Api.Responds
            [match es with
             | [] => Tools.NO_REGISTRATIONS
             | _ :: _ => Tools.ALL_REGISTRATIONS +:+ report_lines 1 es
             end],
          run_ops ops (snd (init None))).
Proof.
  intros Hops. rewrite init_absent.
  destruct (run_ops_grows ops []) as (es & Hes & _ & _ & Hfit). exists es.
  split; [done|]. rewrite Hes.
  unfold Api.get_all_registrations_http, Api.respond.
  by rewrite get_all_registration_store by auto.
Qed.

End Adapters.

Section MissingColumn.

Variable list_repr : list string -> string.

Lemma format_row_full (i : nat) (r : pydict) :
  full_record r -> exists line, Tools.format_row list_repr i r = Returns line.
Proof.
  intros ([n Hn] & [e He] & [d Hd] & [t Ht]). unfold Tools.format_row.
  rewrite (format_item_str _ _ _ _ Hn), (format_item_str _ _ _ _ He),
    (format_item_str _ _ _ _ Hd), (format_item_str _ _ _ _ Ht).
  eexists. reflexivity.
Qed.

Lemma format_rows_missing_name (i : nat) (msg : string)
      (pre post : list pydict) (r : pydict) :
  Forall full_record pre -> r !! Some "Name" = None ->
  Tools.format_rows list_repr i msg (pre ++ r :: post)
  = Raises (KeyError "Name").
Proof.
  intros Hpre Hr. revert i msg.
  induction Hpre as [|r' pre Hr' _ IH]; intros i msg.
  - cbn [app Tools.format_rows]. unfold Tools.format_row, Tools.format_item, getitem.
    by rewrite Hr.
  - cbn [app Tools.format_rows].
    destruct (format_row_full i r' Hr') as [line ->]. cbn [obind]. apply IH.
Qed.

(** X15. The listing endpoint can fail on a file that the manager lists
    without error: when a listed record has no Name key (the header of
    the file has no such column) and the records before it are complete,
    the tool raises [KeyError] for "Name" and the endpoint raises
    [HTTPException] with status 500; the file is not touched. *)
Theorem listing_endpoint_missing_name (fs : fstate) (l : listing)
    (pre post : list pydict) (r : pydict) :
  get_all_registrations fs = (Returns l, fs) ->
  l_data l = pre ++ r :: post ->
  Forall full_record pre ->
  r !! Some "Name" = None ->
  Api.get_all_registrations_http list_repr fs
  = (Api.HTTPException 500 "Failed to fetch registrations: " (KeyError "Name"),
     fs).
Proof.
  intros Hl Hd Hpre Hr.
  pose proof (get_all_registrations_success _ _ Hl) as Hs.
  unfold Api.get_all_registrations_http, Api.respond,
    Tools.get_all_registration, mbind.
  rewrite Hl. unfold lift, Tools.get_all_message. rewrite Hs, Hd.
  rewrite (format_rows_missing_name _ _ _ _ _ Hpre Hr).
  by destruct pre.
Qed.

End MissingColumn.

(** ** A line with too few fields *)

Section ShortLine.

Variable list_repr : list string -> string.

Lemma read_single_line (row : list string) :
  row <> [] -> Forall fits row ->
  read_text parse_reset (universal_newlines (writerow row))
  = Returns [map universal_newlines row].
Proof.
  intros Hne Hfit. rewrite <- reader_list_read_text. by apply writerow_roundtrip.
Qed.

Lemma read_extra_line (es : list entry) (row : list string) :
  Forall entry_fits es -> row <> [] -> Forall fits row ->
  reader_list
    (iter_lines (universal_newlines (file_text es +:+ writerow row)))
  = Returns (REQUIRED_FIELDS
             :: map (fun e => map universal_newlines (entry_row e)) es
                ++ [map universal_newlines row]).
Proof.
  intros Hes Hne Hfit.
  by rewrite read_file_text_then, read_single_line.
Qed.

Lemma rows_extra_line (es : list entry) (row : list string) :
  row <> [] ->
  DictReader.rows
    (REQUIRED_FIELDS
     :: map (fun e => map universal_newlines (entry_row e)) es ++ [row])
  = map listed es ++ [DictReader.make_row REQUIRED_FIELDS row].
Proof.
  intros Hne. unfold DictReader.rows.
  rewrite List.filter_app, filter_map_true by reflexivity.
  assert (List.filter DictReader.nonblank [row] = [row]) as ->
    by (by destruct row).
  by rewrite map_app, map_map.
Qed.

(** The listing of a store file with one more written line behind it. *)
Lemma get_all_registrations_extra_line (es : list entry) (row : list string) :
  Forall entry_fits es -> row <> [] -> Forall fits row ->
  get_all_registrations (Some (file_text es +:+ writerow row))
  = (Returns {| l_success := true; l_count := None;
                l_data := map listed es
                          ++ [DictReader.make_row REQUIRED_FIELDS
                                (map universal_newlines row)] |},
     Some (file_text es +:+ writerow row)).
Proof.
  intros Hes Hne Hfit.
  cbv [get_all_registrations mbind path_exists open_r_lines lift mret negb].
  rewrite read_extra_line by done. cbn [omap obind].
  rewrite rows_extra_line; [done|]. by destruct row.
Qed.

Lemma format_rows_listed_then (i : nat) (msg : string) (es : list entry)
      (rest : list pydict) :
  Tools.format_rows list_repr i msg (map listed es ++ rest)
  = Tools.format_rows list_repr (i + length es) (msg +:+ report_lines i es) rest.
Proof.
  revert i msg. induction es as [|e es IH]; intros i msg.
  - cbn [map app report_lines length]. by rewrite Nat.add_0_r, append_nil_r.
  - cbn [map app Tools.format_rows report_lines length].
    rewrite format_row_listed. cbn [obind].
    by rewrite IH, append_assoc, Nat.add_succ_r.
Qed.

Lemma short_row_fields (name : string) :
  DictReader.make_row REQUIRED_FIELDS [name]
  = <[Some "Registration_Date" := VNone]>
      (<[Some "Date_of_Birth" := VNone]>
         (<[Some "Email" := VNone]> (<[Some "Name" := VStr name]> ∅))).
Proof. reflexivity. Qed.

Lemma format_row_short (i : nat) (name : string) :
  Tools.format_row list_repr i (DictReader.make_row REQUIRED_FIELDS [name])
  = Returns (Tools.str_int i +:+ ". " +:+ name +:+ " | " +:+ "None" +:+ " | "
             +:+ "None" +:+ " | " +:+ "None" +:+ Tools.NEWLINE).
Proof.
  rewrite short_row_fields.
  unfold Tools.format_row, Tools.format_item, getitem.
  rewrite !lookup_insert_ne by discriminate. rewrite lookup_insert_eq.
  cbn [omap obind Tools.format_value].
  rewrite lookup_insert_ne by discriminate.
  rewrite lookup_insert_ne by discriminate. rewrite lookup_insert_eq.
  cbn [omap obind Tools.format_value].
  rewrite lookup_insert_ne by discriminate. rewrite lookup_insert_eq.
  cbn [omap obind Tools.format_value].
  rewrite lookup_insert_eq. reflexivity.
Qed.

(** X16. A line of the file that has a name and no other field is not
    refused: when that name and the fields of the store before it are
    within the field size limit of the csv reader, the manager lists the
    line as a record whose email, date of birth and registration date are
    [None], and the report of the listing tool shows it as a numbered line
    with the word None three times. *)
Theorem short_line_is_reported (es : list entry) (name : string) :
  Forall entry_fits es ->
  fits name ->
  get_all_registrations (Some (file_text es +:+ writerow [name]))
  = (Returns {| l_success := true; l_count := None;
                l_data := map listed es
                          ++ [<[Some "Registration_Date" := VNone]>
                                (<[Some "Date_of_Birth" := VNone]>
                                   (<[Some "Email" := VNone]>
                                      (<[Some "Name"
                                         := VStr (universal_newlines name)]> ∅)))] |},
     Some (file_text es +:+ writerow [name]))
  /\ Tools.get_all_registration list_repr
       (Some (file_text es +:+ writerow [name]))
     = (Returns
          [Tools.mkTextContent "text"
             (Tools.ALL_REGISTRATIONS +:+ report_lines 1 es
              +:+ Tools.str_int (S (length es)) +:+ ". "
              +:+ universal_newlines name +:+ " | None | None | None"
              +:+ Tools.NEWLINE)],
        Some (file_text es +:+ writerow [name])).
Proof.
  intros Hes Hname.
  assert (Forall fits [name]) as Hrow by by repeat constructor.
  split.
  - rewrite get_all_registrations_extra_line by done. cbn [map].
    by rewrite short_row_fields.
  - unfold Tools.get_all_registration, mbind.
    rewrite get_all_registrations_extra_line by done.
    unfold lift, Tools.get_all_message. cbn [l_success l_data map].
    destruct (map listed es ++ [DictReader.make_row REQUIRED_FIELDS
                                  [universal_newlines name]])
      as [|r0 rs] eqn:Hrs.
    { by destruct es. }
    rewrite <- Hrs, format_rows_listed_then. cbn [Tools.format_rows].
    rewrite format_row_short. cbn [obind]. unfold mret.
    rewrite !append_assoc. reflexivity.
Qed.

End ShortLine.

(** ** Looking up what was added *)

Section Lookup.

Lemma existsb_snoc {A : Type} (p : A -> bool) (l : list A) (x : A) :
  existsb p (l ++ [x]) = existsb p l || p x.
Proof. rewrite existsb_app. cbn [existsb]. by rewrite orb_false_r. Qed.

(** X17. On every file whose listed records all carry an email,
    [email_exists] returns, without raising, whether some record has the
    given email, letter case aside. *)
Theorem email_exists_answer (fs : fstate) (l : listing) (email : string) :
  get_all_registrations fs = (Returns l, fs) ->
  Forall (fun r => is_Some (str_field r "Email")) (l_data l) ->
  exists b,
    email_exists email fs = (Returns b, fs)
    /\ (b = true <->
        exists r e, r ∈ l_data l /\ str_field r "Email" = Some e
                    /\ lower e = lower email).
Proof.
  intros Hl Hk. exists (existsb (record_same_email email) (l_data l)).
  split.
  - unfold email_exists, mbind, lift. by rewrite Hl, any_email_records.
  - rewrite existsb_exists. split.
    + intros (r & Hin & Hsame). unfold record_same_email in Hsame.
      destruct (str_field r "Email") as [e|] eqn:He; [|done].
      exists r, e. split; [by apply list_elem_of_In|].
      split; [done|]. by apply String.eqb_eq.
    + intros (r & e & Hin & He & Hsame). exists r.
      split; [by apply list_elem_of_In|].
      unfold record_same_email. rewrite He. by apply String.eqb_eq.
Qed.

Context `{V : RegistrationValidator}.

(** X18. An email that was registered is found afterwards: when
    [add_registration] has succeeded on a file written by the store with
    an email that has no surrounding whitespace and no carriage return,
    and the stored fields and the trimmed name, the email and the date of
    birth are within the field size limit of the csv reader,
    [email_exists] is true for that email in any letter case, and every
    later valid call with such an email gets the duplicate-email result
    and changes nothing. *)
Theorem added_email_is_found (es : list entry) (name email dob : string)
    (now : datetime) (msg : string) (data : pydict) (fs' : fstate) :
  Forall entry_fits es ->
  fits (strip name) -> fits email -> fits dob ->
  add_registration name email dob now (store_of es)
  = (Returns (Success msg data), fs') ->
  strip email = email ->
  universal_newlines email = email ->
  forall email',
    lower email' = lower email ->
    email_exists email' fs' = (Returns true, fs')
    /\ forall name' dob' now',
         all_valid name' email' dob' = true ->
         add_registration name' email' dob' now' fs'
         = (Returns DuplicateEmail, fs').
Proof.
  intros Hfit Hfn Hfe Hfd Hadd Hstrip Hun email' Hsame.
  destruct (add_registration_success_inv _ _ _ _ _ _ _ _ Hfit Hadd) as [Hv Hd].
  rewrite add_registration_success in Hadd by done.
  injection Hadd as _ _ <-.
  assert (Forall entry_fits (es ++ [new_entry name email dob now])) as Hfit'.
  { apply Forall_snoc_fits, entry_fits_new_entry; try done. by rewrite Hstrip. }
  assert (existsb (same_email email')
            (es ++ [new_entry name email dob now]) = true) as Hex.
  { rewrite existsb_snoc. apply orb_true_intro. right.
    unfold same_email. cbn [new_entry e_email].
    rewrite Hstrip, Hun, Hsame. apply String.eqb_refl. }
  split; [by rewrite email_exists_store, Hex|].
  intros name' dob' now' Hv'. by apply add_registration_duplicate.
Qed.

End Lookup.

(** ** A field beyond the limit of the reader *)

Section Oversize.

Variable list_repr : list string -> string.

Lemma email_exists_raises (email : string) (fs : fstate) (e : exn) :
  get_all_registrations fs = (Raises e, fs) ->
  email_exists email fs = (Raises e, fs).
Proof. intros Hl. unfold email_exists, mbind. by rewrite Hl. Qed.

Context `{V : RegistrationValidator}.

(** X20. The length of a name is checked nowhere: when the validators
    accept a name that, trimmed, needs no quotes in the file and is longer
    than the field size limit of the csv reader, [add_registration]
    succeeds and writes it, and from then on the file cannot be read:
    the listing, the duplicate check, the search and every later valid
    [add_registration] raise the error of the csv reader and leave the
    file as it is, and the listing endpoint raises [HTTPException] with
    status 500. *)
Theorem oversize_name_blocks_store (es : list entry)
    (name email dob : string) (now : datetime) :
  Forall entry_fits es ->
  all_valid name email dob = true ->
  email_exists email (store_of es) = (Returns false, store_of es) ->
  must_quote (strip name) = false ->
  ~ fits (strip name) ->
  exists msg data fs',
    add_registration name email dob now (store_of es)
    = (Returns (Success msg data), fs')
    /\ get_all_registrations fs' = (Raises CsvError, fs')
    /\ (forall email', email_exists email' fs' = (Raises CsvError, fs'))
    /\ (forall query, search_registrations query fs' = (Raises CsvError, fs'))
    /\ (forall name' email' dob' now',
          all_valid name' email' dob' = true ->
          add_registration name' email' dob' now' fs' = (Raises CsvError, fs'))
    /\ Api.get_all_registrations_http list_repr fs'
       = (Api.HTTPException 500 "Failed to fetch registrations: " CsvError, fs').
Proof.
  intros Hfit Hv Hex Hq Hover.
  rewrite email_exists_store in Hex by done. injection Hex as Hex.
  destruct (add_registration_overflow es name email dob now Hfit Hv Hex Hq Hover)
    as (msg & data & fs' & Hadd & _ & Hlist).
  exists msg, data, fs'. split; [exact Hadd|]. split; [exact Hlist|].
  split; [|split; [|split]].
  - intros email'. by apply email_exists_raises.
  - intros query. unfold search_registrations, mbind. by rewrite Hlist.
  - intros name' email' dob' now' Hv'.
    rewrite add_registration_valid by done. unfold mbind at 1.
    by rewrite (email_exists_raises _ _ _ Hlist).
  - unfold Api.get_all_registrations_http, Api.respond,
      Tools.get_all_registration, mbind.
    by rewrite Hlist.
Qed.

End Oversize.

(** ** The further theorems at concrete inputs *)

Section MoreRuns.

Import Scenario Damage.

Ltac solve_fits := repeat constructor; vm_compute; discriminate.

Lemma short_line_store_listing :
  get_all_registrations short_line_store
  = (Returns {| l_success := true; l_count := None;
                l_data := [listed john; short_record] |},
     short_line_store).
Proof.
  apply (get_all_registrations_extra_line [john] ["Jane"]);
    [apply john_fits|done|solve_fits].
Qed.

Lemma foreign_store_listing :
  get_all_registrations foreign_store
  = (Returns {| l_success := true; l_count := None;
                l_data := [foreign_record] |},
     foreign_store).
Proof. vm_compute. reflexivity. Qed.

Lemma csv_round_trip_witness :
  reader_list
    (iter_lines
       (universal_newlines
          (writerow ["Doe, John"; "say " +:+ String DQUOTE "hi";
                     "two" +:+ String LF "lines"; EmptyString])))
  = Returns [["Doe, John"; "say " +:+ String DQUOTE "hi";
              "two" +:+ String LF "lines"; EmptyString]].
Proof.
  apply csv_round_trip; [discriminate|solve_fits|].
  repeat constructor.
Defined.

Lemma reachable_listing_witness :
  exists l,
    get_all_registrations
      (run_ops (V := V0)
         [OpAdd "Doe, John" "john@x.com" "1990-01-15" clock1; OpList;
          OpAdd "Jane Roe" "jane@x.com" "1992-07-04" clock2]
         (snd (init None)))
    = (Returns l,
       run_ops (V := V0)
         [OpAdd "Doe, John" "john@x.com" "1990-01-15" clock1; OpList;
          OpAdd "Jane Roe" "jane@x.com" "1992-07-04" clock2]
         (snd (init None)))
    /\ l_success l = true
    /\ Forall full_record (l_data l)
    /\ Forall no_CR_record (l_data l).
Proof.
  apply (reachable_listing (V := V0)).
  solve_fits.
Defined.

Lemma add_without_header_witness :
  exists msg data,
    add_registration (V := V0) "John Doe" "john@example.com" "1990-01-15"
      clock1 (Some EmptyString)
    = (Returns (Success msg data),
       Some (writerow ["John Doe"; "john@example.com"; "1990-01-15";
                       "2026-11-03 09:05:07"]))
    /\ get_all_registrations
         (Some (writerow ["John Doe"; "john@example.com"; "1990-01-15";
                          "2026-11-03 09:05:07"]))
       = (Returns {| l_success := true; l_count := None; l_data := [] |},
          Some (writerow ["John Doe"; "john@example.com"; "1990-01-15";
                          "2026-11-03 09:05:07"]))
    /\ email_exists "john@example.com"
         (Some (writerow ["John Doe"; "john@example.com"; "1990-01-15";
                          "2026-11-03 09:05:07"]))
       = (Returns false,
          Some (writerow ["John Doe"; "john@example.com"; "1990-01-15";
                          "2026-11-03 09:05:07"])).
Proof.
  refine (add_without_header (V := V0) (Some EmptyString)
            "John Doe" "john@example.com" "1990-01-15" clock1 _ _ _ _ _).
  - by right.
  - vm_compute. discriminate.
  - vm_compute. discriminate.
  - vm_compute. discriminate.
  - vm_compute. reflexivity.
Defined.

Lemma search_by_name_first_witness :
  search_registrations "JANE" short_line_store
  = (Returns {| l_success := true; l_count := Some 1;
                l_data := [short_record] |},
     short_line_store).
Proof.
  refine (search_by_name_first short_line_store
            {| l_success := true; l_count := None;
               l_data := [listed john; short_record] |} "JANE" _ _).
  - apply short_line_store_listing.
  - constructor; [|constructor; [|constructor]].
    + split; [eexists; vm_compute; reflexivity|].
      right. eexists. vm_compute. reflexivity.
    + split; [eexists; vm_compute; reflexivity|].
      left. vm_compute. reflexivity.
Defined.

Lemma search_blank_query_witness :
  search_registrations "   " store_doe_roe
  = (Returns {| l_success := true; l_count := Some 2;
                l_data := [listed john_x; listed jane_x] |},
     store_doe_roe).
Proof.
  refine (search_blank_query store_doe_roe
            {| l_success := true; l_count := None;
               l_data := [listed john_x; listed jane_x] |} "   " _ _ _).
  - rewrite store_doe_roe_eq. apply get_all_registrations_store, doe_roe_fits.
  - repeat constructor; eexists; vm_compute; reflexivity.
  - reflexivity.
Defined.


Lemma damaged_record_blocks_add_witness :
  exists e,
    (e = KeyError "Email" \/ e = AttributeError)
    /\ email_exists "new@x.com" short_line_store = (Raises e, short_line_store)
    /\ add_registration (V := V0) "Jane Roe" "new@x.com" "1992-07-04" clock2
         short_line_store
       = (Raises e, short_line_store).
Proof.
  refine (damaged_record_blocks_add (V := V0)
            "Jane Roe" "new@x.com" "1992-07-04" clock2 short_line_store
            {| l_success := true; l_count := None;
               l_data := [listed john; short_record] |}
            [listed john] [] short_record _ _ _ _ _).
  - vm_compute. reflexivity.
  - apply short_line_store_listing.
  - reflexivity.
  - constructor; [|constructor].
    exists "john@example.com". split; [vm_compute; reflexivity|discriminate].
  - vm_compute. reflexivity.
Defined.

Lemma clean_adds_keep_emails_unique_witness :
  exists l,
    get_all_registrations
      (run_ops (V := V0)
         [OpAdd "John Doe" "john@x.com" "1990-01-15" clock1;
          OpAdd "Johnny" "JOHN@X.COM" "1991-02-03" clock2; OpList;
          OpAdd "Jane Roe" "jane@x.com" "1992-07-04" clock2]
         (snd (init None)))
    = (Returns l,
       run_ops (V := V0)
         [OpAdd "John Doe" "john@x.com" "1990-01-15" clock1;
          OpAdd "Johnny" "JOHN@X.COM" "1991-02-03" clock2; OpList;
          OpAdd "Jane Roe" "jane@x.com" "1992-07-04" clock2]
         (snd (init None)))
    /\ Forall (fun r => is_Some (str_field r "Email")) (l_data l)
    /\ NoDup (map record_email_key (l_data l)).
Proof.
  apply (clean_adds_keep_emails_unique (V := V0)).
  - repeat constructor.
  - solve_fits.
Defined.

Lemma listing_only_grows_witness :
  exists before after more,
    get_all_registrations (store_of [john_x])
    = (Returns before, store_of [john_x])
    /\ get_all_registrations
         (run_ops (V := V0)
            [OpAdd "Johnny" "JOHN@X.COM" "1991-02-03" clock2; OpSearch "doe";
             OpAdd "Jane Roe" "jane@x.com" "1992-07-04" clock2]
            (store_of [john_x]))
       = (Returns after,
          run_ops (V := V0)
            [OpAdd "Johnny" "JOHN@X.COM" "1991-02-03" clock2; OpSearch "doe";
             OpAdd "Jane Roe" "jane@x.com" "1992-07-04" clock2]
            (store_of [john_x]))
    /\ l_data after = l_data before ++ more
    /\ length more
       <= length
            (List.filter is_add
               [OpAdd "Johnny" "JOHN@X.COM" "1991-02-03" clock2;
                OpSearch "doe";
                OpAdd "Jane Roe" "jane@x.com" "1992-07-04" clock2]).
Proof.
  apply (listing_only_grows (V := V0)).
  - apply john_x_fits.
  - solve_fits.
Defined.

Lemma report_of_store_witness :
  Tools.get_all_registration no_repr (store_of [john_x; jane_x])
  = (Returns
       [Tools.mkTextContent "text"
          (Tools.ALL_REGISTRATIONS +:+ report_lines 1 [john_x; jane_x])],
     store_of [john_x; jane_x]).
Proof. apply (report_of_store no_repr [john_x; jane_x]), doe_roe_fits. Defined.

Lemma no_registrations_report_witness :
  Tools.get_all_registration no_repr fresh
  = (Returns [Tools.mkTextContent "text" Tools.NO_REGISTRATIONS], fresh).
Proof.
  refine (proj2 (no_registrations_report no_repr fresh
                   {| l_success := true; l_count := None; l_data := [] |} _) _).
  - vm_compute. reflexivity.
  - reflexivity.
Defined.

Lemma report_after_add_witness :
  exists fs',
    Tools.add_registration no_repr (V := V0)
      " Jane Roe " "jane@x.com" "1992-07-04" clock2 (store_of [john_x])
    = (Returns [Tools.mkTextContent "text"
                  (success_text " Jane Roe " "jane@x.com" "1992-07-04" clock2)],
       fs')
    /\ Tools.get_all_registration no_repr fs'
       = (Returns
            [Tools.mkTextContent "text"
               (Tools.ALL_REGISTRATIONS
                +:+ "1. John Doe | john@x.com | 1990-01-15 | 2026-11-03 09:05:07"
                +:+ Tools.NEWLINE
                +:+ "2. Jane Roe | jane@x.com | 1992-07-04 | 2026-11-03 09:06:30"
                +:+ Tools.NEWLINE)],
          fs').
Proof.
  refine (report_after_add no_repr (V := V0) [john_x]
            " Jane Roe " "jane@x.com" "1992-07-04" clock2 _ _ _ _ _ _).
  - apply john_x_fits.
  - vm_compute. discriminate.
  - vm_compute. discriminate.
  - vm_compute. discriminate.
  - vm_compute. reflexivity.
  - rewrite email_exists_store by apply john_x_fits. reflexivity.
Defined.

Lemma listing_endpoint_on_reachable_witness :
  exists es,
    run_ops (V := V0)
      [OpAdd "John Doe" "john@x.com" "1990-01-15" clock1; OpList]
      (snd (init None))
    = store_of es
    /\ Api.get_all_registrations_http no_repr
         (run_ops (V := V0)
            [OpAdd "John Doe" "john@x.com" "1990-01-15" clock1; OpList]
            (snd (init None)))
       = (Api.Responds
            [match es with
             | [] => Tools.NO_REGISTRATIONS
             | _ :: _ => Tools.ALL_REGISTRATIONS +:+ report_lines 1 es
             end],
          run_ops (V := V0)
            [OpAdd "John Doe" "john@x.com" "1990-01-15" clock1; OpList]
            (snd (init None))).
Proof.
  apply (listing_endpoint_on_reachable no_repr (V := V0)).
  solve_fits.
Defined.

Lemma listing_endpoint_missing_name_witness :
  Api.get_all_registrations_http no_repr foreign_store
  = (Api.HTTPException 500 "Failed to fetch registrations: " (KeyError "Name"),
     foreign_store).
Proof.
  refine (listing_endpoint_missing_name no_repr foreign_store
            {| l_success := true; l_count := None;
               l_data := [foreign_record] |} [] [] foreign_record _ _ _ _).
  - apply foreign_store_listing.
  - reflexivity.
  - constructor.
  - vm_compute. reflexivity.
Defined.

Lemma short_line_is_reported_witness :
  get_all_registrations short_line_store
  = (Returns {| l_success := true; l_count := None;
                l_data := [listed john; short_record] |},
     short_line_store)
  /\ Tools.get_all_registration no_repr short_line_store
     = (Returns
          [Tools.mkTextContent "text"
             (Tools.ALL_REGISTRATIONS
              +:+ "1. John Doe | john@example.com | 1990-01-15 | 2026-11-03 09:05:07"
              +:+ Tools.NEWLINE
              +:+ "2. Jane | None | None | None" +:+ Tools.NEWLINE)],
        short_line_store).
Proof.
  apply (short_line_is_reported no_repr [john] "Jane");
    [apply john_fits|vm_compute; discriminate].
Defined.

Lemma email_exists_answer_witness :
  exists b,
    email_exists "JOHN@X.COM" store_doe_roe = (Returns b, store_doe_roe)
    /\ (b = true <->
        exists r e, r ∈ [listed john_x; listed jane_x]
                    /\ str_field r "Email" = Some e
                    /\ lower e = lower "JOHN@X.COM").
Proof.
  refine (email_exists_answer store_doe_roe
            {| l_success := true; l_count := None;
               l_data := [listed john_x; listed jane_x] |} "JOHN@X.COM" _ _).
  - rewrite store_doe_roe_eq. apply get_all_registrations_store, doe_roe_fits.
  - repeat constructor; eexists; vm_compute; reflexivity.
Defined.

Lemma added_email_is_found_witness :
  email_exists "John@Example.Com" (store_of [john])
  = (Returns true, store_of [john])
  /\ add_registration (V := V0) "Jane" "John@Example.Com" "1990-01-15" clock2
       (store_of [john])
     = (Returns DuplicateEmail, store_of [john]).
Proof.
  destruct (added_email_is_found (V := V0) [] "John Doe" "john@example.com"
              "1990-01-15" clock1 "Registered John Doe" (listed john)
              (store_of [john])) with (email' := "John@Example.Com")
    as [Hex Hadd].
  - constructor.
  - vm_compute. discriminate.
  - vm_compute. discriminate.
  - vm_compute. discriminate.
  - vm_compute. reflexivity.
  - reflexivity.
  - reflexivity.
  - reflexivity.
  - split; [exact Hex|]. apply Hadd. vm_compute. reflexivity.
Defined.

Lemma oversize_name_blocks_store_witness :
  exists msg data fs',
    add_registration (V := V0) long_name "long@example.com" "1990-01-15"
      clock2 (store_of [john])
    = (Returns (Success msg data), fs')
    /\ get_all_registrations fs' = (Raises CsvError, fs')
    /\ email_exists "john@example.com" fs' = (Raises CsvError, fs')
    /\ search_registrations "doe" fs' = (Raises CsvError, fs')
    /\ add_registration (V := V0) "Jane Roe" "jane@x.com" "1992-07-04" clock2 fs'
       = (Raises CsvError, fs')
    /\ Api.get_all_registrations_http no_repr fs'
       = (Api.HTTPException 500 "Failed to fetch registrations: " CsvError, fs').
Proof.
  destruct long_name_facts as (Hq & Hover & Hstrip & _).
  destruct (oversize_name_blocks_store no_repr (V := V0) [john]
              long_name "long@example.com" "1990-01-15" clock2)
    as (msg & data & fs' & Hadd & Hlist & Hex & Hsearch & Hlater & Hhttp).
  - apply john_fits.
  - apply long_name_valid; reflexivity.
  - vm_compute. reflexivity.
  - rewrite Hstrip. exact Hq.
  - rewrite Hstrip. exact Hover.
  - exists msg, data, fs'.
    split; [exact Hadd|]. split; [exact Hlist|].
    split; [apply Hex|]. split; [apply Hsearch|].
    split; [apply Hlater; vm_compute; reflexivity|exact Hhttp].
Defined.

End MoreRuns.
